(** * swiftride-backend: the booking controller

    A shallow embedding of [src/Controller/bookingController.js] and the
    properties its specification states about it.

    The controller is request-handling glue over two document collections
    ([Car] and [Booking]), the JavaScript [Date] object, an invoice renderer
    and a socket broadcaster.  The handlers are embedded as functions in a
    small state-and-early-return monad over an explicit [World]; what the
    JavaScript runtime decides (the clock, [new Date(string)], the locale
    round trip, fresh object ids) is gathered in a [Runtime] record the
    handlers take as an argument. *)

From Stdlib Require Import ZArith QArith Qround Lia Bool List.
From Stdlib Require Import Ascii String DecimalString.
From Stdlib Require SpecFloat.
Import ListNotations.

Local Open Scope Z_scope.

(* ================================================================== *)
(** * JavaScript values used by the controller *)
(* ================================================================== *)

Module Js.

(** A [Date] object: its time value in milliseconds since the epoch, or
    [None] for an Invalid Date (time value NaN). *)
Definition Date := option Z.

(** A Number that is an integer or NaN; [None] is NaN. *)
Definition Num := option Z.

(** A Number in general: an IEEE 754 binary64 value, with the arithmetic
    of the standard library's specification of floating point. *)
Definition Double := SpecFloat.spec_float.

Definition NaN : Double := SpecFloat.S754_nan.

(** The Number an integer denotes (the nearest one, beyond 2^53). *)
Definition ofInt (z : Z) : Double := SpecFloat.binary_normalize 53 1024 z 0 false.

(** [a * b] *)
Definition mul (a b : Double) : Double := SpecFloat.SFmul 53 1024 a b.

(** [isNaN(a)] *)
Definition isNaN (a : Double) : bool :=
  match a with
  | SpecFloat.S754_nan => true
  | _ => false
  end.

(** [a <= 0] *)
Definition notPositive (a : Double) : bool :=
  SpecFloat.SFleb a (SpecFloat.S754_zero false).

(** The integer a Number is, when it is one. *)
Definition integerOf (a : Double) : option Z :=
  match a with
  | SpecFloat.S754_zero _ => Some 0
  | SpecFloat.S754_finite s m e =>
      let magnitude :=
        if 0 <=? e then Some (Z.pos m * 2 ^ e)
        else if Z.pos m mod 2 ^ (- e) =? 0 then Some (Z.pos m / 2 ^ (- e))
        else None in
      option_map (fun v => if s then - v else v) magnitude
  | _ => None
  end.

(** Relational operators on dates go through the time values; every
    comparison with NaN is false. *)
Definition lt (a b : Date) : bool :=
  match a, b with
  | Some x, Some y => x <? y
  | _, _ => false
  end.

Definition le (a b : Date) : bool :=
  match a, b with
  | Some x, Some y => x <=? y
  | _, _ => false
  end.

Definition ge (a b : Date) : bool := le b a.

(** Truthiness of a request field that is a string when present:
    [undefined] and the empty string are falsy. *)
Definition truthy (f : option string) : bool :=
  match f with
  | Some s => negb (s =? "")%string
  | None => false
  end.

(** The field inside a template literal. *)
Definition text (f : option string) : string :=
  match f with
  | Some s => s
  | None => "undefined"
  end.

(** Decimal rendering of an integer Number ([Number.prototype.toString]). *)
Definition toString (n : Z) : string :=
  NilZero.string_of_int (Z.to_int n).

(** [s.padStart(width, "0")]. *)
Definition padStart0 (width : nat) (s : string) : string :=
  (string_of_list_ascii (repeat "0"%char (width - String.length s)) ++ s)%string.

Definition isDigit (c : ascii) : bool :=
  let n := N_of_ascii c in ((48 <=? n) && (n <=? 57))%N.

Fixpoint digitsValue (acc : Z) (s : string) : option Z :=
  match s with
  | EmptyString => Some acc
  | String c rest =>
      if isDigit c
      then digitsValue (10 * acc + Z.of_N (N_of_ascii c) - 48) rest
      else None
  end.

(** [Number(s)] on the strings a clock field is made of: the empty string
    is 0, a run of decimal digits is its value, and every other string is
    taken as NaN (signs, fractions, exponents and blanks are not
    modelled). *)
Definition Number (s : string) : Num := digitsValue 0 s.

(** [s.split(sep)] for a one-character separator. *)
Fixpoint split (sep : ascii) (s : string) : list string :=
  match s with
  | EmptyString => [EmptyString]
  | String c rest =>
      if Ascii.eqb c sep then EmptyString :: split sep rest
      else match split sep rest with
           | piece :: pieces => String c piece :: pieces
           | [] => [String c EmptyString]
           end
  end.

End Js.

(* ================================================================== *)
(** * Calendar arithmetic of the [Date] object *)
(* ================================================================== *)

Module Calendar.

Definition msPerDay : Z := 1000 * 60 * 60 * 24.

(** Day number (days since 1970-01-01) of a proleptic Gregorian date. *)
Definition daysFromCivil (y m d : Z) : Z :=
  let y' := if m <=? 2 then y - 1 else y in
  let era := y' / 400 in
  let yoe := y' - era * 400 in
  let mp := if 2 <? m then m - 3 else m + 9 in
  let doy := (153 * mp + 2) / 5 + d - 1 in
  let doe := yoe * 365 + yoe / 4 - yoe / 100 + doy in
  era * 146097 + doe - 719468.

(** The inverse: year, month and day of a day number. *)
Definition civilFromDays (z : Z) : Z * Z * Z :=
  let z' := z + 719468 in
  let era := z' / 146097 in
  let doe := z' - era * 146097 in
  let yoe := (doe - doe / 1460 + doe / 36524 - doe / 146096) / 365 in
  let doy := doe - (365 * yoe + yoe / 4 - yoe / 100) in
  let mp := (5 * doy + 2) / 153 in
  let d := doy - (153 * mp + 2) / 5 + 1 in
  let m := if mp <? 10 then mp + 3 else mp - 9 in
  let y := yoe + era * 400 in
  (if m <=? 2 then y + 1 else y, m, d).

(** The year of an ISO string: four digits, or a sign and six digits
    outside 0..9999. *)
Definition isoYear (y : Z) : string :=
  if (0 <=? y) && (y <=? 9999) then Js.padStart0 4 (Js.toString y)
  else ((if (y <? 0)%Z then "-" else "+")
          ++ Js.padStart0 6 (Js.toString (Z.abs y)))%string.

(** [d.toISOString().split("T")[0]] for a valid date [d] of time value
    [t]: the UTC calendar date. *)
Definition toISODate (t : Z) : string :=
  let '(y, m, d) := civilFromDays (t / msPerDay) in
  (isoYear y ++ "-" ++ Js.padStart0 2 (Js.toString m)
             ++ "-" ++ Js.padStart0 2 (Js.toString d))%string.

End Calendar.

(* ================================================================== *)
(** * The document store: query filters *)
(* ================================================================== *)

(** Filters are evaluated as the store evaluates them, on the paths a
    document has; the model layer hands them over as the handler wrote
    them. *)
Module Mongo.

(** Field values, by BSON type. *)
Inductive Value :=
| VId (id : string)        (* ObjectId *)
| VStr (s : string)
| VNum (n : Js.Double)
| VDate (d : Js.Date)
| VNull.

(** The operators the controller's filters use. *)
Inductive Cond :=
| Eq (v : Value)           (* path: v *)
| Ne (v : Value)           (* $ne *)
| Lte (v : Value)          (* $lte *)
| Gte (v : Value).         (* $gte *)

(** A filter object is the conjunction of its entries; an entry is a
    path with its operators or an [$or] over filter objects. *)
#[local] Set Warnings "-register-all".
Inductive Filter :=
| Field (path : string) (conds : list Cond)
| Or (alternatives : list Filter)
| All (entries : list Filter).

(** A document, read through its paths. *)
Definition Doc := string -> option Value.

Definition valueEqb (a b : Value) : bool :=
  match a, b with
  | VId x, VId y => (x =? y)%string
  | VStr x, VStr y => (x =? y)%string
  | VNum x, VNum y => SpecFloat.SFeqb x y
  | VDate (Some x), VDate (Some y) => x =? y
  | VNull, VNull => true
  | _, _ => false
  end.

(** [stored <= bound] within one type; values of different types are
    never range-comparable.  Strings compare by code unit. *)
Definition valueLeb (a b : Value) : bool :=
  match a, b with
  | VId x, VId y => String.leb x y
  | VStr x, VStr y => String.leb x y
  | VNum x, VNum y => SpecFloat.SFleb x y
  | VDate (Some x), VDate (Some y) => x <=? y
  | VNull, VNull => true
  | _, _ => false
  end.

(** A missing path reads as null. *)
Definition stored (field : option Value) : Value :=
  match field with
  | Some v => v
  | None => VNull
  end.

Definition holds (field : option Value) (c : Cond) : bool :=
  match c with
  | Eq v => valueEqb (stored field) v
  | Ne v => negb (valueEqb (stored field) v)
  | Lte v => valueLeb (stored field) v
  | Gte v => valueLeb v (stored field)
  end.

Fixpoint matches (doc : Doc) (q : Filter) : bool :=
  match q with
  | Field path conds => forallb (holds (doc path)) conds
  | Or alternatives => existsb (matches doc) alternatives
  | All entries => forallb (matches doc) entries
  end.

End Mongo.

(* ================================================================== *)
(** * Data model *)
(* ================================================================== *)

(** Modelled from the spec: the [Car] model ([../Model/Car.js]); an id, the
    availability flag, the daily rate (a Number) and the owning user.  Ids
    are well-formed object ids, written as strings. *)
Module Car.
Record t := {
  _id : string;
  availability : string;
  rentRate : Js.Double;
  userId : string
}.

Definition setAvailability (a : string) (c : t) : t :=
  {| _id := _id c; availability := a; rentRate := rentRate c; userId := userId c |}.
End Car.

(** Modelled from the spec: the [Booking] model ([../Model/bookingModel.js]);
    three references, the four date and time strings and the price. *)
Module Booking.
Record t := {
  _id : string;
  carId : string;
  userId : string;
  showroomId : string;
  rentalStartDate : string;
  rentalStartTime : string;
  rentalEndDate : string;
  rentalEndTime : string;
  totalPrice : Js.Double
}.

Definition setRentalStartDate (v : string) (b : t) : t :=
  {| _id := _id b; carId := carId b; userId := userId b; showroomId := showroomId b;
     rentalStartDate := v; rentalStartTime := rentalStartTime b;
     rentalEndDate := rentalEndDate b; rentalEndTime := rentalEndTime b;
     totalPrice := totalPrice b |}.

Definition setRentalStartTime (v : string) (b : t) : t :=
  {| _id := _id b; carId := carId b; userId := userId b; showroomId := showroomId b;
     rentalStartDate := rentalStartDate b; rentalStartTime := v;
     rentalEndDate := rentalEndDate b; rentalEndTime := rentalEndTime b;
     totalPrice := totalPrice b |}.

Definition setRentalEndDate (v : string) (b : t) : t :=
  {| _id := _id b; carId := carId b; userId := userId b; showroomId := showroomId b;
     rentalStartDate := rentalStartDate b; rentalStartTime := rentalStartTime b;
     rentalEndDate := v; rentalEndTime := rentalEndTime b;
     totalPrice := totalPrice b |}.

Definition setRentalEndTime (v : string) (b : t) : t :=
  {| _id := _id b; carId := carId b; userId := userId b; showroomId := showroomId b;
     rentalStartDate := rentalStartDate b; rentalStartTime := rentalStartTime b;
     rentalEndDate := rentalEndDate b; rentalEndTime := v;
     totalPrice := totalPrice b |}.

Definition setTotalPrice (v : Js.Double) (b : t) : t :=
  {| _id := _id b; carId := carId b; userId := userId b; showroomId := showroomId b;
     rentalStartDate := rentalStartDate b; rentalStartTime := rentalStartTime b;
     rentalEndDate := rentalEndDate b; rentalEndTime := rentalEndTime b;
     totalPrice := v |}.

(** The stored document: these paths and no other. *)
Definition doc (b : t) : Mongo.Doc := fun path =>
  if (path =? "_id")%string then Some (Mongo.VId (_id b))
  else if (path =? "carId")%string then Some (Mongo.VId (carId b))
  else if (path =? "userId")%string then Some (Mongo.VId (userId b))
  else if (path =? "showroomId")%string then Some (Mongo.VId (showroomId b))
  else if (path =? "rentalStartDate")%string then Some (Mongo.VStr (rentalStartDate b))
  else if (path =? "rentalStartTime")%string then Some (Mongo.VStr (rentalStartTime b))
  else if (path =? "rentalEndDate")%string then Some (Mongo.VStr (rentalEndDate b))
  else if (path =? "rentalEndTime")%string then Some (Mongo.VStr (rentalEndTime b))
  else if (path =? "totalPrice")%string then Some (Mongo.VNum (totalPrice b))
  else None.
End Booking.

(** The snapshot handed to the invoice renderer. *)
Module Invoice.
Record t := {
  _id : string;
  carId : string;
  userId : string;
  rentalStartDate : string;
  rentalEndDate : string;
  rentalStartTime : string;
  rentalEndTime : string;
  totalPrice : Js.Double
}.
End Invoice.

(** What a handler can observe and change: the two collections, the
    invoices requested from the renderer and the events emitted on the
    socket, oldest first. *)
Record World := {
  cars : list Car.t;
  bookings : list Booking.t;
  invoices : list Invoice.t;
  emitted : list (string * string)
}.

(** What the JavaScript runtime and the collaborators decide. *)
Record Runtime := {
  (** [new Date()]: the current time value. *)
  now : Z;
  (** [new Date(text)]: the time value of a date string, or Invalid Date. *)
  Date_parse : string -> Js.Date;
  (** [new Date(d.toLocaleString("en-US", { timeZone: "Asia/Karachi" }))]
      for a valid [d]: the Karachi wall clock of [d] read back as a date. *)
  karachiWallClock : Z -> Js.Date;
  (** The [_id] of the next [new Booking(...)]. *)
  newObjectId : string;
  (** Modelled from the spec: [createInvoice] of [./invoiceController.js],
      which renders the snapshot and returns the file path. *)
  invoicePath : Invoice.t -> string
}.

(** Responses: [res.status(code).json(body)]. *)
Inductive Json :=
| Message (message : string)
| Details (message : string)
| WithBooking (message : string) (booking : Booking.t)
| WithInvoice (message : string) (booking : Booking.t) (invoiceUrl : string)
| Failure (message : string).

Record Response := { status : Z; json : Json }.

(** Exceptions the handlers' [catch] blocks can see. *)
Inductive Exn :=
| RangeError          (* toISOString of an Invalid Date *)
| TypeError           (* a property of null or undefined *)
| ValidationError     (* the model layer refusing a document *)
| DuplicateKey.       (* error code 11000 *)

(* ================================================================== *)
(** * Handlers: state, early return and exceptions *)
(* ================================================================== *)

(** A step of a handler either goes on with a value, has sent the response
    and returned, or has thrown. *)
Inductive Outcome (A : Type) :=
| Next (a : A)
| Reply (r : Response)
| Throw (e : Exn).

Arguments Next {A} a.
Arguments Reply {A} r.
Arguments Throw {A} e.

Definition Handler (A : Type) := World -> Outcome A * World.

Definition ret {A} (a : A) : Handler A := fun w => (Next a, w).

Definition bind {A B} (m : Handler A) (k : A -> Handler B) : Handler B :=
  fun w =>
    match m w with
    | (Next a, w') => k a w'
    | (Reply r, w') => (Reply r, w')
    | (Throw e, w') => (Throw e, w')
    end.

Declare Scope handler_scope.
Delimit Scope handler_scope with handler.
Notation "x <- m ;; k" := (bind m (fun x => k))
  (at level 61, m at next level, right associativity) : handler_scope.
Notation "m ;; k" := (bind m (fun _ => k))
  (at level 61, right associativity) : handler_scope.
Local Open Scope handler_scope.

(** [return res.status(code).json(body)]. *)
Definition reply {A} (code : Z) (body : Json) : Handler A :=
  fun w => (Reply {| status := code; json := body |}, w).

Definition throw {A} (e : Exn) : Handler A := fun w => (Throw e, w).

(** [if (c) return res.status(code).json(body);] *)
Definition exitIf (c : bool) (code : Z) (body : Json) : Handler unit :=
  if c then reply code body else ret tt.

(** A handler body inside [try { ... } catch (error) { ... }]: it ends by
    replying or by throwing, and the catch block turns the exception into a
    response.  Writes made before the exception stay. *)
Definition try (body : Handler Empty_set) (catch : Exn -> Response)
  : World -> Response * World :=
  fun w =>
    match body w with
    | (Next a, _) => match a with end
    | (Reply r, w') => (r, w')
    | (Throw e, w') => (catch e, w')
    end.

(** ** Collection operations *)

Definition findCar (id : string) (w : World) : option Car.t :=
  find (fun c => (Car._id c =? id)%string) (cars w).

(** [Car.findById(id)] *)
Definition Car_findById (id : string) : Handler (option Car.t) :=
  fun w => (Next (findCar id w), w).

(** [car.save()] of a document read from the collection. *)
Definition Car_save (c : Car.t) : Handler unit :=
  fun w =>
    (Next tt,
     {| cars := map (fun c' => if (Car._id c' =? Car._id c)%string then c else c') (cars w);
        bookings := bookings w; invoices := invoices w; emitted := emitted w |}).

(** [Booking.findOne(filter)]: the first stored booking the filter matches. *)
Definition Booking_findOne (q : Mongo.Filter) : Handler (option Booking.t) :=
  fun w => (Next (find (fun b => Mongo.matches (Booking.doc b) q) (bookings w)), w).

(** [Booking.findById(id).populate("carId")]: the booking, with the car its
    [carId] refers to, or null in its place when there is none. *)
Definition Booking_findById_populate (id : string)
  : Handler (option (Booking.t * option Car.t)) :=
  fun w =>
    (Next match find (fun b => (Booking._id b =? id)%string) (bookings w) with
          | Some b => Some (b, findCar (Booking.carId b) w)
          | None => None
          end, w).

(** [newBooking.save()]: an insert; [_id] is unique in the collection. *)
Definition Booking_insert (b : Booking.t) : Handler unit :=
  fun w =>
    if existsb (fun b' => (Booking._id b' =? Booking._id b)%string) (bookings w)
    then (Throw DuplicateKey, w)
    else (Next tt,
          {| cars := cars w; bookings := bookings w ++ [b];
             invoices := invoices w; emitted := emitted w |}).

(** [newBooking.save()] through the model layer: the price is a Number
    path, for which NaN is refused. *)
Definition Booking_insert_checked (b : Booking.t) : Handler unit :=
  if Js.isNaN (Booking.totalPrice b) then throw ValidationError else Booking_insert b.

(** [booking.save()] of a document read from the collection. *)
Definition Booking_save (b : Booking.t) : Handler unit :=
  fun w =>
    (Next tt,
     {| cars := cars w;
        bookings := map (fun b' => if (Booking._id b' =? Booking._id b)%string
                                   then b else b') (bookings w);
        invoices := invoices w; emitted := emitted w |}).

(** [Booking.findByIdAndDelete(id)] *)
Definition Booking_findByIdAndDelete (id : string) : Handler unit :=
  fun w =>
    (Next tt,
     {| cars := cars w;
        bookings := filter (fun b => negb (Booking._id b =? id)%string) (bookings w);
        invoices := invoices w; emitted := emitted w |}).

(** [createInvoice(snapshot)] *)
Definition createInvoice (rt : Runtime) (snapshot : Invoice.t) : Handler string :=
  fun w =>
    (Next (invoicePath rt snapshot),
     {| cars := cars w; bookings := bookings w;
        invoices := invoices w ++ [snapshot]; emitted := emitted w |}).

(** [io.emit(channel, { message })] *)
Definition io_emit (channel message : string) : Handler unit :=
  fun w =>
    (Next tt,
     {| cars := cars w; bookings := bookings w; invoices := invoices w;
        emitted := emitted w ++ [(channel, message)] |}).

(** ** Dates and prices *)

(** The locale round trip on a date object; an Invalid Date stays one. *)
Definition toKarachi (rt : Runtime) (d : Js.Date) : Js.Date :=
  match d with
  | Some t => karachiWallClock rt t
  | None => None
  end.

(** [(end - start) / (1000 * 60 * 60 * 24) + 1], in exact arithmetic.  The
    day count is an integer far below 2^53, which every Number holds; only
    the price, a product with an arbitrary rate, is taken in binary64. *)
Definition rentalDuration (endTime startTime : Z) : Q :=
  (inject_Z (endTime - startTime) / inject_Z Calendar.msPerDay + 1)%Q.

(** [Math.max(0, Math.ceil(rentalDuration))] *)
Definition daysRented (endTime startTime : Z) : Z :=
  Z.max 0 (Qceiling (rentalDuration endTime startTime)).

(** The same on date objects: NaN as soon as one of them is invalid. *)
Definition daysRentedOf (endDate startDate : Js.Date) : Js.Num :=
  match endDate, startDate with
  | Some e, Some s => Some (daysRented e s)
  | _, _ => None
  end.

(** [daysRented * rentRate], a product of Numbers. *)
Definition priceOf (days : Js.Num) (rentRate : Js.Double) : Js.Double :=
  match days with
  | Some d => Js.mul (Js.ofInt d) rentRate
  | None => Js.NaN
  end.

(** [d.toISOString().split("T")[0]]; a RangeError on an Invalid Date. *)
Definition isoDate {A} (d : Js.Date) (k : string -> Handler A) : Handler A :=
  match d with
  | Some t => k (Calendar.toISODate t)
  | None => throw RangeError
  end.

Definition showNum (n : Js.Num) : string :=
  match n with
  | Some z => Js.toString z
  | None => "NaN"
  end.

(** The helper of [bookCar] that renders a clock in 12-hour form; [None]
    when [minute] is undefined and [minute.toString()] throws. *)
Definition formatTimeTo12Hour (time : string) : option string :=
  match map Js.Number (Js.split ":" time) with
  | hour :: minute :: _ =>
      let period :=
        match hour with
        | Some h => if 12 <=? h then "PM"%string else "AM"%string
        | None => "AM"%string
        end in
      let formattedHour :=
        match hour with
        | Some h => if Z.rem h 12 =? 0 then 12 else Z.rem h 12
        | None => 12
        end in
      Some (Js.toString formattedHour ++ ":"
            ++ Js.padStart0 2 (showNum minute) ++ " " ++ period)%string
  | _ => None
  end.

Definition isSome {A} (o : option A) : bool :=
  match o with
  | Some _ => true
  | None => false
  end.

(* ================================================================== *)
(** * bookCar *)
(* ================================================================== *)

Module BookCarReq.
(** [req.body], [req.user], [req.protocol] and [req.get("host")]. *)
Record t := {
  carId : option string;
  showroomId : option string;
  rentalStartDate : option string;
  rentalStartTime : option string;
  rentalEndDate : option string;
  rentalEndTime : option string;
  user : string;
  protocol : string;
  host : string
}.
End BookCarReq.

(** The filter of the overlap check in [bookCar]. *)
Definition bookCarOverlap (carId rentalStartDate rentalEndDate : string) : Mongo.Filter :=
  Mongo.All
    [ Mongo.Field "carId" [Mongo.Eq (Mongo.VId carId)];
      Mongo.Or
        [ Mongo.All
            [ Mongo.Field "rentalStartDate" [Mongo.Lte (Mongo.VStr rentalEndDate)];
              Mongo.Field "rentalEndDate" [Mongo.Gte (Mongo.VStr rentalStartDate)] ];
          Mongo.All
            [ Mongo.Field "rentalStartDate"
                [Mongo.Gte (Mongo.VStr rentalStartDate); Mongo.Lte (Mongo.VStr rentalEndDate)] ];
          Mongo.All
            [ Mongo.Field "rentalEndDate"
                [Mongo.Gte (Mongo.VStr rentalStartDate); Mongo.Lte (Mongo.VStr rentalEndDate)] ] ] ].

Definition invoiceUrlOf (protocol host bookingId : string) : string :=
  (protocol ++ "://" ++ host ++ "/api/bookcar/invoices/invoice_" ++ bookingId ++ ".pdf")%string.

Definition bookCarCatch (error : Exn) : Response :=
  match error with
  | ValidationError => {| status := 400; json := Details "Invalid input data." |}
  | DuplicateKey => {| status := 409; json := Message "Duplicate booking detected." |}
  | _ => {| status := 500; json := Message "Server error. Please try again later." |}
  end.

(** The test of the first [if]: a required field is absent or empty. *)
Definition missingField (req : BookCarReq.t) : bool :=
  negb (Js.truthy (BookCarReq.carId req))
  || negb (Js.truthy (BookCarReq.showroomId req))
  || negb (Js.truthy (BookCarReq.rentalStartDate req))
  || negb (Js.truthy (BookCarReq.rentalStartTime req))
  || negb (Js.truthy (BookCarReq.rentalEndDate req))
  || negb (Js.truthy (BookCarReq.rentalEndTime req)).

Definition bookCar (rt : Runtime) (req : BookCarReq.t) : World -> Response * World :=
  let userId := BookCarReq.user req in
  if missingField req
  then fun w => ({| status := 400; json := Message "All fields are required." |}, w)
  else
    let carId := Js.text (BookCarReq.carId req) in
    let showroomId := Js.text (BookCarReq.showroomId req) in
    let rentalStartDate := Js.text (BookCarReq.rentalStartDate req) in
    let rentalStartTime := Js.text (BookCarReq.rentalStartTime req) in
    let rentalEndDate := Js.text (BookCarReq.rentalEndDate req) in
    let rentalEndTime := Js.text (BookCarReq.rentalEndTime req) in
    try
      (found <- Car_findById carId ;;
       match found with
       | None => reply 404 (Message "Car not found.")
       | Some car =>
         exitIf (negb (Car.availability car =? "Available")%string)
                400 (Message "Car is not available for booking.") ;;
         overlappingBooking <-
           Booking_findOne (bookCarOverlap carId rentalStartDate rentalEndDate) ;;
         exitIf (isSome overlappingBooking)
                400 (Message "The car is already booked for the selected dates.") ;;
         let rentalStartDateis :=
           Date_parse rt (rentalStartDate ++ "T" ++ rentalStartTime ++ ":00+05:00")%string in
         let rentalEndDateis :=
           Date_parse rt (rentalEndDate ++ "T" ++ rentalEndTime ++ ":00+05:00")%string in
         let now := Some (now rt) in
         exitIf (Js.lt rentalStartDateis now)
                400 (Message "Rental start date must be in the present or future.") ;;
         exitIf (Js.lt rentalEndDateis rentalStartDateis)
                400 (Message "End date must be after the start date.") ;;
         let daysRented := daysRentedOf rentalEndDateis rentalStartDateis in
         let totalPrice := priceOf daysRented (Car.rentRate car) in
         isoDate rentalStartDateis (fun formattedRentalStartDate =>
         isoDate rentalEndDateis (fun formattedRentalEndDate =>
         match formatTimeTo12Hour rentalStartTime,
               formatTimeTo12Hour rentalEndTime with
         | Some formattedRentalStartTime, Some formattedRentalEndTime =>
           let newBooking :=
             {| Booking._id := newObjectId rt;
                Booking.carId := carId;
                Booking.userId := userId;
                Booking.showroomId := showroomId;
                Booking.rentalStartDate := formattedRentalStartDate;
                Booking.rentalStartTime := formattedRentalStartTime;
                Booking.rentalEndDate := formattedRentalEndDate;
                Booking.rentalEndTime := formattedRentalEndTime;
                Booking.totalPrice := totalPrice |} in
           Booking_insert_checked newBooking ;;
           invoicePath <-
             createInvoice rt
               {| Invoice._id := Booking._id newBooking;
                  Invoice.carId := carId;
                  Invoice.userId := userId;
                  Invoice.rentalStartDate := formattedRentalStartDate;
                  Invoice.rentalEndDate := formattedRentalEndDate;
                  Invoice.rentalStartTime := formattedRentalStartTime;
                  Invoice.rentalEndTime := formattedRentalEndTime;
                  Invoice.totalPrice := totalPrice |} ;;
           Car_save (Car.setAvailability "Rented Out" car) ;;
           let invoiceUrl :=
             invoiceUrlOf (BookCarReq.protocol req) (BookCarReq.host req)
                          (Booking._id newBooking) in
           reply 201 (WithInvoice "Car booked successfully" newBooking invoiceUrl)
         | None, _ => throw TypeError
         | _, None => throw TypeError
         end))
       end)
      bookCarCatch.

(** The two dates [bookCar] builds from a request. *)
Definition requestedStart (rt : Runtime) (req : BookCarReq.t) : Js.Date :=
  Date_parse rt (Js.text (BookCarReq.rentalStartDate req) ++ "T"
                 ++ Js.text (BookCarReq.rentalStartTime req) ++ ":00+05:00")%string.

Definition requestedEnd (rt : Runtime) (req : BookCarReq.t) : Js.Date :=
  Date_parse rt (Js.text (BookCarReq.rentalEndDate req) ++ "T"
                 ++ Js.text (BookCarReq.rentalEndTime req) ++ ":00+05:00")%string.

(** The filter of the overlap check for a request. *)
Definition requestedOverlap (req : BookCarReq.t) : Mongo.Filter :=
  bookCarOverlap (Js.text (BookCarReq.carId req))
                 (Js.text (BookCarReq.rentalStartDate req))
                 (Js.text (BookCarReq.rentalEndDate req)).

(* ================================================================== *)
(** * updateBooking *)
(* ================================================================== *)

Module UpdateReq.
(** [req.params.bookingId] and the optional fields of [req.body]. *)
Record t := {
  bookingId : string;
  rentalStartDate : option string;
  rentalEndDate : option string;
  rentalStartTime : option string;
  rentalEndTime : option string
}.
End UpdateReq.

(** [if (field) booking.path = field;] *)
Definition override (field : option string) (set : string -> Booking.t -> Booking.t)
                    (booking : Booking.t) : Booking.t :=
  if Js.truthy field then set (Js.text field) booking else booking.

(** A populated reference inside a filter is cast to the id it stands for. *)
Definition carRef (car : option Car.t) : Mongo.Value :=
  match car with
  | Some c => Mongo.VId (Car._id c)
  | None => Mongo.VNull
  end.

(** The filter of the overlap re-check in [updateBooking]. *)
Definition updateBookingOverlap (car : option Car.t) (bookingId : string)
                                (updatedLocalStart updatedLocalEnd : Js.Date) : Mongo.Filter :=
  Mongo.All
    [ Mongo.Field "carId" [Mongo.Eq (carRef car)];
      Mongo.Field "_id" [Mongo.Ne (Mongo.VId bookingId)];
      Mongo.Or
        [ Mongo.All
            [ Mongo.Field "rentalStart" [Mongo.Lte (Mongo.VDate updatedLocalEnd)];
              Mongo.Field "rentalEnd" [Mongo.Gte (Mongo.VDate updatedLocalStart)] ] ] ].

(** [booking.totalPrice = totalPrice; await booking.save()]: the price is a
    Number path, and the model layer refuses NaN for it. *)
Definition saveWithPrice (totalPrice : Js.Double) (booking : Booking.t)
  : Handler Booking.t :=
  if Js.isNaN totalPrice then throw ValidationError
  else
    let booking := Booking.setTotalPrice totalPrice booking in
    Booking_save booking ;; ret booking.

Definition updateBooking (rt : Runtime) (req : UpdateReq.t) : World -> Response * World :=
  let bookingId := UpdateReq.bookingId req in
  try
    (found <- Booking_findById_populate bookingId ;;
     match found with
     | None => reply 404 (Message "Booking not found")
     | Some (booking, populatedCar) =>
       let currentTime := Some (now rt) in
       let localCurrentTime := toKarachi rt currentTime in
       let rentalStartDateTime :=
         Date_parse rt (Booking.rentalStartDate booking ++ "T"
                        ++ Booking.rentalStartTime booking)%string in
       let localRentalStartDateTime := toKarachi rt rentalStartDateTime in
       exitIf (Js.ge localCurrentTime localRentalStartDateTime)
              400 (Message "You can only update the booking before the rental start time.") ;;
       let previousRentalStartDateTime := localRentalStartDateTime in
       let booking := override (UpdateReq.rentalStartDate req) Booking.setRentalStartDate booking in
       let booking := override (UpdateReq.rentalEndDate req) Booking.setRentalEndDate booking in
       let booking := override (UpdateReq.rentalStartTime req) Booking.setRentalStartTime booking in
       let booking := override (UpdateReq.rentalEndTime req) Booking.setRentalEndTime booking in
       let updatedRentalStartDateTime :=
         Date_parse rt (Booking.rentalStartDate booking ++ "T"
                        ++ Booking.rentalStartTime booking)%string in
       let updatedLocalRentalStartDateTime := toKarachi rt updatedRentalStartDateTime in
       let updatedRentalEndDateTime :=
         Date_parse rt (Booking.rentalEndDate booking ++ "T"
                        ++ Booking.rentalEndTime booking)%string in
       let updatedLocalRentalEndDateTime := toKarachi rt updatedRentalEndDateTime in
       exitIf (Js.le updatedLocalRentalEndDateTime updatedLocalRentalStartDateTime)
              400 (Message "Rental end time must be after the rental start time.") ;;
       exitIf (Js.le updatedLocalRentalStartDateTime previousRentalStartDateTime)
              400 (Message "New rental start time must be after the previous rental start time.") ;;
       overlappingBooking <-
         Booking_findOne (updateBookingOverlap populatedCar bookingId
                            updatedLocalRentalStartDateTime updatedLocalRentalEndDateTime) ;;
       exitIf (isSome overlappingBooking)
              400 (Message "The car is already booked for the selected dates.") ;;
       match populatedCar with
       | None => reply 404 (Message "Car not found")
       | Some car =>
         let daysRented :=
           daysRentedOf updatedLocalRentalEndDateTime updatedLocalRentalStartDateTime in
         let totalPrice := priceOf daysRented (Car.rentRate car) in
         booking <- saveWithPrice totalPrice booking ;;
         reply 200 (WithBooking "Booking updated successfully" booking)
       end
     end)
    (fun error => {| status := 500; json := Failure "Error updating booking" |}).

(* ================================================================== *)
(** * extendBooking *)
(* ================================================================== *)

Module ExtendReq.
Record t := {
  bookingId : string;
  rentalEndDate : option string;
  rentalEndTime : option string;
  protocol : string;
  host : string
}.
End ExtendReq.

(** [/^\d{2}:\d{2}$/.test(s)] *)
Definition isClock (s : string) : bool :=
  match list_ascii_of_string s with
  | [h1; h2; colon; m1; m2] =>
      Js.isDigit h1 && Js.isDigit h2 && Ascii.eqb colon ":"
      && Js.isDigit m1 && Js.isDigit m2
  | _ => false
  end.

(** The filter of the overlap re-check in [extendBooking]. *)
Definition extendBookingOverlap (car : option Car.t) (bookingId : string)
                                (booking : Booking.t) : Mongo.Filter :=
  Mongo.All
    [ Mongo.Field "carId" [Mongo.Eq (carRef car)];
      Mongo.Field "_id" [Mongo.Ne (Mongo.VId bookingId)];
      Mongo.Or
        [ Mongo.All
            [ Mongo.Field "rentalStartDate"
                [Mongo.Lte (Mongo.VStr (Booking.rentalEndDate booking))];
              Mongo.Field "rentalEndDate"
                [Mongo.Gte (Mongo.VStr (Booking.rentalStartDate booking))] ] ] ].

Definition extendBooking (rt : Runtime) (req : ExtendReq.t) : World -> Response * World :=
  let bookingId := ExtendReq.bookingId req in
  let rentalEndDate := ExtendReq.rentalEndDate req in
  let rentalEndTime := ExtendReq.rentalEndTime req in
  try
    (found <- Booking_findById_populate bookingId ;;
     match found with
     | None => reply 404 (Message "Booking not found")
     | Some (booking, populatedCar) =>
       let currentTime := Some (now rt) in
       let rentalStartDateTime :=
         Date_parse rt (Booking.rentalStartDate booking ++ "T"
                        ++ Booking.rentalStartTime booking)%string in
       exitIf (Js.le rentalStartDateTime currentTime)
              400 (Message "You can only extend the booking before the rental start time.") ;;
       exitIf (Js.truthy rentalEndDate
               && negb (isSome (Date_parse rt (Js.text rentalEndDate))))
              400 (Message "Invalid rental end date format.") ;;
       let booking := override rentalEndDate Booking.setRentalEndDate booking in
       exitIf (Js.truthy rentalEndTime && negb (isClock (Js.text rentalEndTime)))
              400 (Message "Invalid rental end time format.") ;;
       let booking := override rentalEndTime Booking.setRentalEndTime booking in
       let updatedRentalEndDateTime :=
         Date_parse rt (Booking.rentalEndDate booking ++ "T"
                        ++ Booking.rentalEndTime booking)%string in
       exitIf (Js.le updatedRentalEndDateTime rentalStartDateTime)
              400 (Message "Rental end time must be after the rental start time.") ;;
       overlappingBooking <-
         Booking_findOne (extendBookingOverlap populatedCar bookingId booking) ;;
       exitIf (isSome overlappingBooking)
              400 (Message "The car is already booked for the selected dates.") ;;
       let daysRented := daysRentedOf updatedRentalEndDateTime rentalStartDateTime in
       match populatedCar with
       | None => throw TypeError
       | Some car =>
         let totalPrice := priceOf daysRented (Car.rentRate car) in
         exitIf (Js.isNaN totalPrice || Js.notPositive totalPrice)
                400 (Message "Failed to calculate total price.") ;;
         booking <- saveWithPrice totalPrice booking ;;
           invoicePath <-
             createInvoice rt
               {| Invoice._id := Booking._id booking;
                  Invoice.carId := Car._id car;
                  Invoice.userId := Booking.userId booking;
                  Invoice.rentalStartDate := Booking.rentalStartDate booking;
                  Invoice.rentalEndDate := Booking.rentalEndDate booking;
                  Invoice.rentalStartTime := Booking.rentalStartTime booking;
                  Invoice.rentalEndTime := Booking.rentalEndTime booking;
                  Invoice.totalPrice := totalPrice |} ;;
         let invoiceUrl :=
           invoiceUrlOf (ExtendReq.protocol req) (ExtendReq.host req)
                        (Booking._id booking) in
         reply 200 (WithInvoice "Booking extended successfully" booking invoiceUrl)
       end
     end)
    (fun error => {| status := 500; json := Failure "Error extending booking" |}).

(* ================================================================== *)
(** * cancelBooking and Return_car *)
(* ================================================================== *)

Module CancelReq.
Record t := { bookingId : string; user : string }.
End CancelReq.

Definition cancelBooking (req : CancelReq.t) : World -> Response * World :=
  let bookingId := CancelReq.bookingId req in
  let userId := CancelReq.user req in
  try
    (found <-
       Booking_findOne
         (Mongo.All [ Mongo.Field "_id" [Mongo.Eq (Mongo.VId bookingId)];
                      Mongo.Field "userId" [Mongo.Eq (Mongo.VId userId)] ]) ;;
     match found with
     | None => reply 404 (Message "Booking not found or unauthorized access.")
     | Some booking =>
       car <- Car_findById (Booking.carId booking) ;;
       match car with
       | Some car => Car_save (Car.setAvailability "Available" car)
       | None => ret tt
       end ;;
       Booking_findByIdAndDelete bookingId ;;
       reply 200 (Message "Booking canceled successfully.")
     end)
    (fun error => {| status := 500; json := Message "Server error. Please try again later." |}).

Definition Return_car (BookingId : string) : World -> Response * World :=
  try
    (found <- Booking_findById_populate BookingId ;;
     match found with
     | None => reply 404 (Message "Booking not found")
     | Some (booking, None) => throw TypeError
     | Some (booking, Some populatedCar) =>
       found <- Car_findById (Car._id populatedCar) ;;
       match found with
       | None => reply 404 (Message "car not found")
       | Some car =>
         io_emit ("notification" ++ Car.userId car) "Car return request recieved" ;;
         reply 200 (Message "Return request sent to showroom  owner for approved")
       end
     end)
    (fun error => {| status := 500; json := Failure "Something went wrong" |}).

(* ================================================================== *)
(** * getUserBookings *)
(* ================================================================== *)

(** Modelled from the spec: the documents [showroomId] refers to; an id and
    named fields, one of which is the credential [password]. *)
Module Showroom.
Record t := {
  _id : string;
  fields : list (string * string)
}.

(** The projection ["-password"]: every field but the named one. *)
Definition without (path : string) (s : t) : t :=
  {| _id := _id s;
     fields := filter (fun field => negb (fst field =? path)%string) (fields s) |}.
End Showroom.

(** An element of the listing: the booking with its two references
    populated ([carDetails] and [showroomDetails] repeat them). *)
Module BookingDetails.
Record t := {
  booking : Booking.t;
  carDetails : option Car.t;
  showroomDetails : option Showroom.t
}.
End BookingDetails.

Inductive ListJson :=
| Listing (entries : list BookingDetails.t)
| ListMessage (message : string).

Record ListResponse := { listStatus : Z; listJson : ListJson }.

(** [.populate("showroomId", "-password")] on one booking. *)
Definition populateShowroom (showrooms : list Showroom.t) (b : Booking.t)
  : option Showroom.t :=
  option_map (Showroom.without "password")
    (find (fun s => (Showroom._id s =? Booking.showroomId b)%string) showrooms).

(** The handler reads the Booking and Car collections and the showroom
    collection, and writes nothing; [user] is [req.user]. *)
Definition getUserBookings (showrooms : list Showroom.t) (user : option string)
  : World -> ListResponse * World :=
  fun w =>
    if negb (Js.truthy user)
    then ({| listStatus := 400; listJson := ListMessage "User ID is required" |}, w)
    else
      let userId := Js.text user in
      let found :=
        filter (fun b => Mongo.matches (Booking.doc b)
                           (Mongo.All [Mongo.Field "userId" [Mongo.Eq (Mongo.VId userId)]]))
               (bookings w) in
      match found with
      | [] => ({| listStatus := 404; listJson := ListMessage "No active bookings found" |}, w)
      | _ :: _ =>
          let bookingsWithDetails :=
            map (fun b =>
                   {| BookingDetails.booking := b;
                      BookingDetails.carDetails := findCar (Booking.carId b) w;
                      BookingDetails.showroomDetails := populateShowroom showrooms b |})
                found in
          ({| listStatus := 200; listJson := Listing bookingsWithDetails |}, w)
      end.

(* ================================================================== *)
(** * Vocabulary of the properties *)
(* ================================================================== *)

(** The booking [findById] returns. *)
Definition findBooking (id : string) (w : World) : option Booking.t :=
  find (fun b => (Booking._id b =? id)%string) (bookings w).

(** The date [updateBooking] and [extendBooking] build from the stored
    start of a booking. *)
Definition storedStart (rt : Runtime) (booking : Booking.t) : Js.Date :=
  Date_parse rt (Booking.rentalStartDate booking ++ "T"
                 ++ Booking.rentalStartTime booking)%string.

(** The locale round trip gives a date for every date and keeps their
    order. *)
Definition wallClockKeepsOrder (rt : Runtime) : Prop :=
  forall a b, a <= b ->
    exists la lb,
      karachiWallClock rt a = Some la /\ karachiWallClock rt b = Some lb /\ la <= lb.

(** The test of the first guard of [updateBooking]. *)
Definition updateGuard (rt : Runtime) (booking : Booking.t) : bool :=
  Js.ge (toKarachi rt (Some (now rt))) (toKarachi rt (storedStart rt booking)).

(* ================================================================== *)
(** * A concrete runtime *)
(* ================================================================== *)

(** A runtime whose [Date] constructor reads the ECMAScript date-time
    string format ([YYYY-MM-DD], optionally followed by [THH:mm], seconds
    and an offset), on a server whose local time is a fixed offset from
    UTC.  A text that starts as a date followed by [T] and does not go on
    as the format demands is an Invalid Date, as in V8, which no longer
    falls back to its legacy formats once the [T] has been read; the legacy
    formats themselves are not modelled and read as Invalid Dates too.  A
    day of the month up to 31 is accepted and carried over into the next
    month.  The handlers do not depend on this module; it makes them run on
    concrete requests. *)
Module Iso.

Fixpoint takeDigits (n : nat) (acc : Z) (cs : list ascii) : option (Z * list ascii) :=
  match n with
  | O => Some (acc, cs)
  | S n' =>
      match cs with
      | c :: rest =>
          if Js.isDigit c
          then takeDigits n' (10 * acc + Z.of_N (N_of_ascii c) - 48) rest
          else None
      | [] => None
      end
  end.

Definition expect (c : ascii) (cs : list ascii) : option (list ascii) :=
  match cs with
  | c' :: rest => if Ascii.eqb c c' then Some rest else None
  | [] => None
  end.

(** The offset suffix, in milliseconds east of UTC: nothing (local
    time), [Z], or a sign with [HH:mm]. *)
Definition offset (serverOffset : Z) (cs : list ascii) : option Z :=
  match cs with
  | [] => Some serverOffset
  | c :: rest =>
      if Ascii.eqb c "Z" then match rest with [] => Some 0 | _ => None end
      else if Ascii.eqb c "+" || Ascii.eqb c "-" then
        match takeDigits 2 0 rest with
        | Some (h, rest) =>
            match expect ":" rest with
            | Some rest =>
                match takeDigits 2 0 rest with
                | Some (m, []) =>
                    if (h <=? 23) && (m <=? 59)
                    then Some ((if Ascii.eqb c "-" then -1 else 1)
                               * (h * 3600000 + m * 60000))
                    else None
                | _ => None
                end
            | None => None
            end
        | None => None
        end
      else None
  end.

(** The time part after [T]: [HH:mm], optional [:ss], then the offset. *)
Definition clock (serverOffset : Z) (cs : list ascii) : option (Z * Z) :=
  match takeDigits 2 0 cs with
  | Some (h, rest) =>
      match expect ":" rest with
      | Some rest =>
          match takeDigits 2 0 rest with
          | Some (m, rest) =>
              let '(sec, rest) :=
                match expect ":" rest with
                | Some rest' =>
                    match takeDigits 2 0 rest' with
                    | Some (sec, rest'') => (Some sec, rest'')
                    | None => (None, rest)
                    end
                | None => (Some 0, rest)
                end in
              match sec, offset serverOffset rest with
              | Some sec, Some off =>
                  if ((h <=? 23) && (m <=? 59) && (sec <=? 59))
                     || ((h =? 24) && (m =? 0) && (sec =? 0))
                  then Some (h * 3600000 + m * 60000 + sec * 1000, off)
                  else None
              | _, _ => None
              end
          | None => None
          end
      | None => None
      end
  | None => None
  end.

Definition parse (serverOffset : Z) (text : string) : Js.Date :=
  match takeDigits 4 0 (list_ascii_of_string text) with
  | Some (y, rest) =>
    match expect "-" rest with
    | Some rest =>
      match takeDigits 2 0 rest with
      | Some (m, rest) =>
        match expect "-" rest with
        | Some rest =>
          match takeDigits 2 0 rest with
          | Some (d, rest) =>
            if (1 <=? m) && (m <=? 12) && (1 <=? d) && (d <=? 31)
            then
              let day := Calendar.daysFromCivil y m d * Calendar.msPerDay in
              match rest with
              | [] => Some day
              | c :: rest =>
                  if Ascii.eqb c "T" then
                    match clock serverOffset rest with
                    | Some (ms, off) => Some (day + ms - off)
                    | None => None
                    end
                  else None
              end
            else None
          | None => None
          end
        | None => None
        end
      | None => None
      end
    | None => None
    end
  | None => None
  end.

(** Karachi is five hours east of UTC; the locale string has whole
    seconds and is read back in the server's local time. *)
Definition wallClock (serverOffset : Z) (t : Z) : Js.Date :=
  Some (1000 * (t / 1000) + 5 * 3600000 - serverOffset).

Definition runtime (clockNow serverOffset : Z) (objectId : string) : Runtime :=
  {| now := clockNow;
     Date_parse := parse serverOffset;
     karachiWallClock := wallClock serverOffset;
     newObjectId := objectId;
     invoicePath := fun snapshot =>
       ("invoices/invoice_" ++ Invoice._id snapshot ++ ".pdf")%string |}.

End Iso.

(* ================================================================== *)
(** * A small fleet *)
(* ================================================================== *)

(** One car at 100 a day, booked from 2025-06-01 to 2025-06-03 on a server
    that runs in UTC; the requests the properties below are tried on. *)
Module Sample.

Local Open Scope string_scope.

Definition car1 : Car.t :=
  {| Car._id := "car1"; Car.availability := "Available";
     Car.rentRate := Js.ofInt 100; Car.userId := "owner1" |}.

Definition fleet : World :=
  {| cars := [car1]; bookings := []; invoices := []; emitted := [] |}.

(** 2025-05-01T00:00:00Z, 2025-12-01T00:00:00Z *)
Definition may2025 : Z := 1746057600000.
Definition december2025 : Z := 1764547200000.

Definition runtimeAt (clock : Z) (objectId : string) : Runtime :=
  Iso.runtime clock 0 objectId.

Definition juneRequest : BookCarReq.t :=
  {| BookCarReq.carId := Some "car1";
     BookCarReq.showroomId := Some "showroom1";
     BookCarReq.rentalStartDate := Some "2025-06-01";
     BookCarReq.rentalStartTime := Some "10:00";
     BookCarReq.rentalEndDate := Some "2025-06-03";
     BookCarReq.rentalEndTime := Some "10:00";
     BookCarReq.user := "user1";
     BookCarReq.protocol := "https";
     BookCarReq.host := "swiftride.example" |}.

(** The world after [juneRequest] was served in May. *)
Definition booked : World :=
  snd (bookCar (runtimeAt may2025 "booking1") juneRequest fleet).

(** The same fleet with an earlier rental of the car on record and the car
    available again. *)
Definition mayBooking : Booking.t :=
  {| Booking._id := "booking0"; Booking.carId := "car1"; Booking.userId := "user2";
     Booking.showroomId := "showroom1";
     Booking.rentalStartDate := "2025-05-10"; Booking.rentalStartTime := "9:00 AM";
     Booking.rentalEndDate := "2025-05-12"; Booking.rentalEndTime := "9:00 AM";
     Booking.totalPrice := Js.ofInt 300 |}.

Definition fleetWithHistory : World :=
  {| cars := [car1]; bookings := [mayBooking]; invoices := []; emitted := [] |}.

(** The booking [booked] holds. *)
Definition juneBooking : Booking.t :=
  {| Booking._id := "booking1"; Booking.carId := "car1"; Booking.userId := "user1";
     Booking.showroomId := "showroom1";
     Booking.rentalStartDate := "2025-06-01"; Booking.rentalStartTime := "10:00 AM";
     Booking.rentalEndDate := "2025-06-03"; Booking.rentalEndTime := "10:00 AM";
     Booking.totalPrice := Js.ofInt 300 |}.

(** In December, half a year after the rental began, the renter asks to
    move it to February 2026. *)
Definition lateUpdate : UpdateReq.t :=
  {| UpdateReq.bookingId := "booking1";
     UpdateReq.rentalStartDate := Some "2026-02-01";
     UpdateReq.rentalEndDate := Some "2026-02-03";
     UpdateReq.rentalStartTime := Some "10:00";
     UpdateReq.rentalEndTime := Some "10:00" |}.

Definition movedBooking : Booking.t :=
  {| Booking._id := "booking1"; Booking.carId := "car1"; Booking.userId := "user1";
     Booking.showroomId := "showroom1";
     Booking.rentalStartDate := "2026-02-01"; Booking.rentalStartTime := "10:00";
     Booking.rentalEndDate := "2026-02-03"; Booking.rentalEndTime := "10:00";
     Booking.totalPrice := Js.ofInt 300 |}.

Definition lateExtend : ExtendReq.t :=
  {| ExtendReq.bookingId := "booking1";
     ExtendReq.rentalEndDate := Some "2026-02-03";
     ExtendReq.rentalEndTime := Some "10:00";
     ExtendReq.protocol := "https";
     ExtendReq.host := "swiftride.example" |}.

(** In May, before the rental begins, the renter asks for two more days
    and leaves the start alone. *)
Definition endOnlyUpdate : UpdateReq.t :=
  {| UpdateReq.bookingId := "booking1";
     UpdateReq.rentalStartDate := None;
     UpdateReq.rentalEndDate := Some "2025-06-05";
     UpdateReq.rentalStartTime := None;
     UpdateReq.rentalEndTime := Some "10:00" |}.

(** A booking whose clocks are stored in 24-hour form. *)
Definition plainBooking : Booking.t :=
  {| Booking._id := "booking1"; Booking.carId := "car1"; Booking.userId := "user1";
     Booking.showroomId := "showroom1";
     Booking.rentalStartDate := "2025-06-01"; Booking.rentalStartTime := "10:00";
     Booking.rentalEndDate := "2025-06-03"; Booking.rentalEndTime := "10:00";
     Booking.totalPrice := Js.ofInt 300 |}.

Definition plainlyBooked : World :=
  {| cars := [Car.setAvailability "Rented Out" car1]; bookings := [plainBooking];
     invoices := []; emitted := [] |}.

(** [user2] asks to cancel the booking of [user1]. *)
Definition strangerCancels : CancelReq.t :=
  {| CancelReq.bookingId := "booking1"; CancelReq.user := "user2" |}.

End Sample.

(* ================================================================== *)
(** * Vocabulary of the further properties *)
(* ================================================================== *)

(** The Booking collection after [booking.save()]. *)
Definition withSaved (saved : Booking.t) (stored : list Booking.t) : list Booking.t :=
  map (fun b' => if (Booking._id b' =? Booking._id saved)%string then saved else b') stored.

(** A clock [HH:MM] as a client sends it. *)
Definition clockText (hour minute : Z) : string :=
  (Js.padStart0 2 (Js.toString hour) ++ ":" ++ Js.padStart0 2 (Js.toString minute))%string.

(** The test that a clock of the day is read as one by [extendBooking] and
    formats to its 12-hour reading in [bookCar]. *)
Definition readsOnClock (hour minute : Z) : bool :=
  isClock (clockText hour minute)
  && negb (clockText hour minute =? "")%string
  && match formatTimeTo12Hour (clockText hour minute) with
     | Some reading =>
         (reading =? Js.toString (if hour mod 12 =? 0 then 12 else hour mod 12)%Z
                     ++ ":" ++ Js.padStart0 2 (Js.toString minute)
                     ++ " " ++ (if (12 <=? hour)%Z then "PM" else "AM"))%string
     | None => false
     end.

(* ================================================================== *)
(** * More requests on the small fleet *)
(* ================================================================== *)

Module Scenario.

Local Open Scope string_scope.

(** [user1] cancels the June booking. *)
Definition ownerCancels : CancelReq.t :=
  {| CancelReq.bookingId := "booking1"; CancelReq.user := "user1" |}.

(** The June booking on record and the car available again. *)
Definition juneOnRecord : World :=
  {| cars := [Sample.car1]; bookings := [Sample.juneBooking];
     invoices := []; emitted := [] |}.

(** A request for 2025-06-02 to 2025-06-04, inside the June booking. *)
Definition overlappingRequest : BookCarReq.t :=
  {| BookCarReq.carId := Some "car1";
     BookCarReq.showroomId := Some "showroom1";
     BookCarReq.rentalStartDate := Some "2025-06-02";
     BookCarReq.rentalStartTime := Some "10:00";
     BookCarReq.rentalEndDate := Some "2025-06-04";
     BookCarReq.rentalEndTime := Some "10:00";
     BookCarReq.user := "user2";
     BookCarReq.protocol := "https";
     BookCarReq.host := "swiftride.example" |}.

(** A request whose end is a day before its start. *)
Definition backwardsRequest : BookCarReq.t :=
  {| BookCarReq.carId := Some "car1";
     BookCarReq.showroomId := Some "showroom1";
     BookCarReq.rentalStartDate := Some "2025-06-03";
     BookCarReq.rentalStartTime := Some "10:00";
     BookCarReq.rentalEndDate := Some "2025-06-02";
     BookCarReq.rentalEndTime := Some "10:00";
     BookCarReq.user := "user1";
     BookCarReq.protocol := "https";
     BookCarReq.host := "swiftride.example" |}.

(** A request whose start date is not a date. *)
Definition garbledRequest : BookCarReq.t :=
  {| BookCarReq.carId := Some "car1";
     BookCarReq.showroomId := Some "showroom1";
     BookCarReq.rentalStartDate := Some "next week";
     BookCarReq.rentalStartTime := Some "10:00";
     BookCarReq.rentalEndDate := Some "2025-06-03";
     BookCarReq.rentalEndTime := Some "10:00";
     BookCarReq.user := "user1";
     BookCarReq.protocol := "https";
     BookCarReq.host := "swiftride.example" |}.

(** In May the renter of the 24-hour booking asks for two more days. *)
Definition twoMoreDays : ExtendReq.t :=
  {| ExtendReq.bookingId := "booking1";
     ExtendReq.rentalEndDate := Some "2025-06-05";
     ExtendReq.rentalEndTime := Some "18:30";
     ExtendReq.protocol := "https";
     ExtendReq.host := "swiftride.example" |}.

(** A second booking of the same car, from 2025-06-04 to 2025-06-08, next
    to the 24-hour booking of 2025-06-01 to 2025-06-03. *)
Definition laterBooking : Booking.t :=
  {| Booking._id := "booking9"; Booking.carId := "car1"; Booking.userId := "user2";
     Booking.showroomId := "showroom1";
     Booking.rentalStartDate := "2025-06-04"; Booking.rentalStartTime := "10:00";
     Booking.rentalEndDate := "2025-06-08"; Booking.rentalEndTime := "10:00";
     Booking.totalPrice := Js.ofInt 500 |}.

Definition twiceBooked : World :=
  {| cars := [Car.setAvailability "Rented Out" Sample.car1];
     bookings := [Sample.plainBooking; laterBooking];
     invoices := []; emitted := [] |}.

(** In May the renter of the first asks to move it to 2025-06-05 till
    2025-06-07, inside the second. *)
Definition moveIntoLater : UpdateReq.t :=
  {| UpdateReq.bookingId := "booking1";
     UpdateReq.rentalStartDate := Some "2025-06-05";
     UpdateReq.rentalEndDate := Some "2025-06-07";
     UpdateReq.rentalStartTime := Some "10:00";
     UpdateReq.rentalEndTime := Some "10:00" |}.

Definition showroom1 : Showroom.t :=
  {| Showroom._id := "showroom1";
     Showroom.fields := [("name", "City Motors"); ("password", "secret")] |}.

(** The same car at a daily rate of 3002399751580331, an integer every
    Number holds exactly. *)
Definition costlyCar : Car.t :=
  {| Car._id := "car1"; Car.availability := "Available";
     Car.rentRate := Js.ofInt 3002399751580331; Car.userId := "owner1" |}.

Definition costlyFleet : World :=
  {| cars := [costlyCar]; bookings := []; invoices := []; emitted := [] |}.

(** The June request with each clock given as the hour alone. *)
Definition bareHourRequest : BookCarReq.t :=
  {| BookCarReq.carId := Some "car1";
     BookCarReq.showroomId := Some "showroom1";
     BookCarReq.rentalStartDate := Some "2025-06-01";
     BookCarReq.rentalStartTime := Some "10";
     BookCarReq.rentalEndDate := Some "2025-06-03";
     BookCarReq.rentalEndTime := Some "10";
     BookCarReq.user := "user1";
     BookCarReq.protocol := "https";
     BookCarReq.host := "swiftride.example" |}.

End Scenario.

(* ================================================================== *)
(** * Properties *)
(* ================================================================== *)

(** ** The order on stored strings *)

Section StringOrder.

Lemma string_compare_trans_le (a b c : string) :
  String.compare a b <> Gt -> String.compare b c <> Gt -> String.compare a c <> Gt.
Proof.
  revert b c.
  induction a as [|x a IH]; intros [|y b] [|z c]; simpl; try congruence.
  unfold Ascii.compare.
  destruct (N.compare_spec (N_of_ascii x) (N_of_ascii y)) as [Hxy|Hxy|Hxy];
    destruct (N.compare_spec (N_of_ascii y) (N_of_ascii z)) as [Hyz|Hyz|Hyz];
    destruct (N.compare_spec (N_of_ascii x) (N_of_ascii z)) as [Hxz|Hxz|Hxz];
    try congruence; try lia; intros; eauto.
Qed.

Lemma string_leb_trans (a b c : string) :
  String.leb a b = true -> String.leb b c = true -> String.leb a c = true.
Proof.
  unfold String.leb. intros Hab Hbc.
  pose proof (string_compare_trans_le a b c) as H.
  destruct (String.compare a b); destruct (String.compare b c);
    destruct (String.compare a c); try reflexivity; try discriminate;
    exfalso; apply H; congruence.
Qed.

End StringOrder.

(** ** Numbers

    The arithmetic of prices: a product of two positive integers is exact
    in binary64 as long as it stays below 2^53. *)

Section NumberArithmetic.

(** [k] zero bits appended to a mantissa. *)
Lemma shifted_value (p k : positive) :
  Z.pos (Pos.iter xO p k) = Z.pos p * 2 ^ Z.pos k.
Proof.
  induction k as [|k IH] using Pos.peano_ind.
  - simpl. lia.
  - rewrite Pos.iter_succ, Pos2Z.inj_succ, Z.pow_succ_r by lia.
    rewrite Pos2Z.inj_xO, IH. ring.
Qed.

(** The number of binary digits of a positive integer. *)
Lemma digits_bounds (p : positive) :
  2 ^ (Z.pos (SpecFloat.digits2_pos p) - 1) <= Z.pos p
  < 2 ^ Z.pos (SpecFloat.digits2_pos p).
Proof.
  induction p as [p IH|p IH|]; cbn [SpecFloat.digits2_pos].
  - rewrite Pos2Z.inj_succ, Z.pow_succ_r by lia.
    replace (Z.succ (Z.pos (SpecFloat.digits2_pos p)) - 1)
      with (Z.succ (Z.pos (SpecFloat.digits2_pos p) - 1)) by lia.
    rewrite Z.pow_succ_r by lia. lia.
  - rewrite Pos2Z.inj_succ, Z.pow_succ_r by lia.
    replace (Z.succ (Z.pos (SpecFloat.digits2_pos p)) - 1)
      with (Z.succ (Z.pos (SpecFloat.digits2_pos p) - 1)) by lia.
    rewrite Z.pow_succ_r by lia. lia.
  - simpl. lia.
Qed.

Lemma digits_unique (p : positive) (d : Z) :
  2 ^ (d - 1) <= Z.pos p < 2 ^ d -> Z.pos (SpecFloat.digits2_pos p) = d.
Proof.
  intros [Hlow Hhigh]. pose proof (digits_bounds p) as [Hlow' Hhigh'].
  destruct (Z.lt_trichotomy (Z.pos (SpecFloat.digits2_pos p)) d) as [Hlt|[Heq|Hgt]];
    [exfalso|exact Heq|exfalso].
  - assert (2 ^ Z.pos (SpecFloat.digits2_pos p) <= 2 ^ (d - 1))
      by (apply Z.pow_le_mono_r; lia).
    lia.
  - assert (Hd : 0 <= d).
    { destruct (Z.neg_nonneg_cases d) as [Hneg|Hpos]; [|exact Hpos].
      rewrite (Z.pow_neg_r 2 d Hneg) in Hhigh. lia. }
    assert (2 ^ d <= 2 ^ (Z.pos (SpecFloat.digits2_pos p) - 1))
      by (apply Z.pow_le_mono_r; lia).
    lia.
Qed.

Lemma iter_pos_is_iter {A} (f : A -> A) (n : positive) (x : A) :
  SpecFloat.iter_pos f n x = Pos.iter f x n.
Proof.
  revert x. induction n as [n IH|n IH|]; intros x; simpl.
  - rewrite !IH, !Pos.iter_swap. reflexivity.
  - rewrite !IH. reflexivity.
  - reflexivity.
Qed.

(** Shifting right by the [k] zero bits gives the mantissa back, exactly. *)
Lemma shift_back (k q : positive) :
  SpecFloat.iter_pos SpecFloat.shr_1 k
    {| SpecFloat.shr_m := Z.pos (Pos.iter xO q k);
       SpecFloat.shr_r := false; SpecFloat.shr_s := false |}
  = {| SpecFloat.shr_m := Z.pos q; SpecFloat.shr_r := false; SpecFloat.shr_s := false |}.
Proof.
  rewrite iter_pos_is_iter.
  induction k as [|k IH] using Pos.peano_ind.
  - reflexivity.
  - rewrite Pos.iter_succ_r. rewrite Pos.iter_succ. cbn [SpecFloat.shr_1 orb].
    exact IH.
Qed.

Lemma digits_shifted (p k : positive) :
  Z.pos (SpecFloat.digits2_pos (Pos.iter xO p k))
  = Z.pos (SpecFloat.digits2_pos p) + Z.pos k.
Proof.
  apply digits_unique. rewrite shifted_value.
  pose proof (digits_bounds p) as [Hlow Hhigh].
  replace (Z.pos (SpecFloat.digits2_pos p) + Z.pos k - 1)
    with ((Z.pos (SpecFloat.digits2_pos p) - 1) + Z.pos k) by lia.
  rewrite !Z.pow_add_r by lia.
  assert (0 < 2 ^ Z.pos k) by (apply Z.pow_pos_nonneg; lia).
  split; [apply Z.mul_le_mono_nonneg_r | apply Z.mul_lt_mono_pos_r]; lia.
Qed.

(** Rounding a 53-bit mantissa changes nothing. *)
Lemma round_full_mantissa (q : positive) (E : Z) :
  Z.pos (SpecFloat.digits2_pos q) = 53 ->
  -1074 <= E <= 971 ->
  SpecFloat.binary_round_aux 53 1024 false (Z.pos q) E SpecFloat.loc_Exact
  = SpecFloat.S754_finite false q E.
Proof.
  intros Hdigits Hrange.
  assert (Hshift : SpecFloat.fexp 53 1024 (SpecFloat.Zdigits2 (Z.pos q) + E) - E = 0).
  { unfold SpecFloat.fexp, SpecFloat.emin. cbn [SpecFloat.Zdigits2].
    rewrite Hdigits. lia. }
  unfold SpecFloat.binary_round_aux, SpecFloat.shr_fexp.
  rewrite Hshift. cbn [SpecFloat.shr SpecFloat.shr_record_of_loc SpecFloat.shr_m
                       SpecFloat.loc_of_shr_record SpecFloat.round_nearest_even].
  rewrite Hshift. cbn [SpecFloat.shr SpecFloat.shr_record_of_loc SpecFloat.shr_m].
  destruct (Z.leb_spec E (1024 - 53)) as [_|Hbig]; [reflexivity | lia].
Qed.

(** Rounding a 53-bit mantissa followed by [k] zero bits drops the zeros. *)
Lemma round_shifted_mantissa (q k : positive) (E : Z) :
  Z.pos (SpecFloat.digits2_pos q) = 53 ->
  -1074 <= E + Z.pos k <= 971 ->
  SpecFloat.binary_round_aux 53 1024 false (Z.pos (Pos.iter xO q k)) E SpecFloat.loc_Exact
  = SpecFloat.S754_finite false q (E + Z.pos k).
Proof.
  intros Hdigits Hrange.
  assert (Hshift : SpecFloat.fexp 53 1024
                     (SpecFloat.Zdigits2 (Z.pos (Pos.iter xO q k)) + E) - E = Z.pos k).
  { unfold SpecFloat.fexp, SpecFloat.emin. cbn [SpecFloat.Zdigits2].
    rewrite digits_shifted, Hdigits. lia. }
  assert (Hrest : SpecFloat.fexp 53 1024 (SpecFloat.Zdigits2 (Z.pos q) + (E + Z.pos k))
                  - (E + Z.pos k) = 0).
  { unfold SpecFloat.fexp, SpecFloat.emin. cbn [SpecFloat.Zdigits2].
    rewrite Hdigits. lia. }
  unfold SpecFloat.binary_round_aux, SpecFloat.shr_fexp.
  rewrite Hshift. cbn [SpecFloat.shr SpecFloat.shr_record_of_loc].
  rewrite shift_back.
  cbn [SpecFloat.shr_m SpecFloat.loc_of_shr_record SpecFloat.round_nearest_even].
  rewrite Hrest. cbn [SpecFloat.shr SpecFloat.shr_record_of_loc SpecFloat.shr_m].
  destruct (Z.leb_spec (E + Z.pos k) (1024 - 53)) as [_|Hbig]; [reflexivity | lia].
Qed.

Lemma digits_below (p : positive) (n : Z) :
  Z.pos p < 2 ^ n -> Z.pos (SpecFloat.digits2_pos p) <= n.
Proof.
  intros Hbelow. pose proof (digits_bounds p) as [Hlow _].
  destruct (Z.le_gt_cases (Z.pos (SpecFloat.digits2_pos p)) n) as [Hle|Hgt]; [exact Hle|].
  assert (0 <= n).
  { destruct (Z.neg_nonneg_cases n) as [Hneg|Hpos]; [|exact Hpos].
    rewrite (Z.pow_neg_r 2 n Hneg) in Hbelow. lia. }
  assert (2 ^ n <= 2 ^ (Z.pos (SpecFloat.digits2_pos p) - 1))
    by (apply Z.pow_le_mono_r; lia).
  lia.
Qed.

(** The Number of a positive integer below 2^53: a 53-bit mantissa that is
    the integer followed by zero bits. *)
Lemma ofInt_positive (p : positive) :
  Z.pos p < 2 ^ 53 ->
  exists q e,
    Js.ofInt (Z.pos p) = SpecFloat.S754_finite false q e
    /\ Z.pos (SpecFloat.digits2_pos q) = 53
    /\ -52 <= e <= 0
    /\ Z.pos q = Z.pos p * 2 ^ (- e).
Proof.
  intros Hbelow.
  pose proof (digits_below p 53 Hbelow) as Hdigits.
  assert (Hpositive : 0 < Z.pos (SpecFloat.digits2_pos p)) by lia.
  unfold Js.ofInt. cbn [SpecFloat.binary_normalize].
  unfold SpecFloat.binary_round, SpecFloat.shl_align, SpecFloat.fexp, SpecFloat.emin.
  destruct (Z.max (Z.pos (SpecFloat.digits2_pos p) + 0 - 53) (3 - 1024 - 53) - 0)
    as [|k|k] eqn:Hshift.
  - exists p, 0. split; [apply round_full_mantissa; lia|].
    repeat split; try lia.
  - lia.
  - exists (Pos.iter xO p k), (Z.neg k).
    assert (Hfull : Z.pos (SpecFloat.digits2_pos (Pos.iter xO p k)) = 53)
      by (rewrite digits_shifted; lia).
    replace (Z.max (Z.pos (SpecFloat.digits2_pos p) + 0 - 53) (3 - 1024 - 53))
      with (Z.neg k) by lia.
    split; [apply round_full_mantissa; [exact Hfull | lia]|].
    repeat split; try lia.
    rewrite shifted_value. reflexivity.
Qed.

(** The product of two positive integers is exact as long as it is below
    2^53. *)
Lemma mul_ofInt_exact (a b : positive) :
  Z.pos (a * b) < 2 ^ 53 ->
  Js.mul (Js.ofInt (Z.pos a)) (Js.ofInt (Z.pos b)) = Js.ofInt (Z.pos (a * b)).
Proof.
  intros Hbelow.
  assert (Ha : Z.pos a < 2 ^ 53) by (rewrite Pos2Z.inj_mul in Hbelow; nia).
  assert (Hb : Z.pos b < 2 ^ 53) by (rewrite Pos2Z.inj_mul in Hbelow; nia).
  destruct (ofInt_positive a Ha) as (qa & ea & -> & Hda & Hea & Hqa).
  destruct (ofInt_positive b Hb) as (qb & eb & -> & Hdb & Heb & Hqb).
  destruct (ofInt_positive (a * b) Hbelow) as (qc & ec & -> & Hdc & Hec & Hqc).
  unfold Js.mul. cbn [SpecFloat.SFmul xorb].
  pose proof (digits_bounds qa) as [Hlowa _]. rewrite Hda in Hlowa.
  pose proof (digits_bounds qb) as [Hlowb _]. rewrite Hdb in Hlowb.
  assert (Hproduct : Z.pos (qa * qb) = Z.pos (a * b) * 2 ^ (- ea - eb)).
  { rewrite !Pos2Z.inj_mul, Hqa, Hqb.
    replace (- ea - eb) with (- ea + - eb) by lia.
    rewrite Z.pow_add_r by lia. ring. }
  assert (Hshift : 0 <= ec - ea - eb).
  { assert (Hbig : 2 ^ 104 <= Z.pos (qa * qb)).
    { rewrite Pos2Z.inj_mul. change (2 ^ 104) with (2 ^ (53 - 1) * 2 ^ (53 - 1)).
      apply Z.mul_le_mono_nonneg; lia. }
    assert (Hsmall : Z.pos (qa * qb) < 2 ^ (53 + (- ea - eb))).
    { rewrite Hproduct, Z.pow_add_r by lia.
      apply Z.mul_lt_mono_pos_r; [apply Z.pow_pos_nonneg; lia | exact Hbelow]. }
    assert (104 < 53 + (- ea - eb)).
    { apply (Z.pow_lt_mono_r_iff 2); lia. }
    lia. }
  assert (Hsplit : Z.pos (qa * qb) = Z.pos qc * 2 ^ (ec - ea - eb)).
  { rewrite Hproduct, Hqc.
    replace (- ea - eb) with (- ec + (ec - ea - eb)) by lia.
    rewrite Z.pow_add_r by lia. ring. }
  destruct (ec - ea - eb) as [|k|k] eqn:Hk; [| |lia].
  - rewrite Z.pow_0_r, Z.mul_1_r in Hsplit. injection Hsplit as ->.
    replace (ea + eb) with ec by lia.
    apply round_full_mantissa; [exact Hdc | lia].
  - rewrite <- shifted_value in Hsplit. injection Hsplit as ->.
    replace ec with (ea + eb + Z.pos k) by lia.
    apply round_shifted_mantissa; [exact Hdc | lia].
Qed.

(** The integer of the Number of a positive integer below 2^53 is that
    integer. *)
Lemma integerOf_ofInt (p : positive) :
  Z.pos p < 2 ^ 53 -> Js.integerOf (Js.ofInt (Z.pos p)) = Some (Z.pos p).
Proof.
  intros Hbelow.
  destruct (ofInt_positive p Hbelow) as (q & e & -> & _ & He & Hq).
  unfold Js.integerOf. rewrite Hq.
  destruct (Z.leb_spec 0 e) as [Hzero|Hneg].
  - replace e with 0 in * by lia. cbn [option_map Z.pow].
    change (- 0) with 0 in Hq. rewrite Z.pow_0_r, Z.mul_1_r in *. f_equal. lia.
  - rewrite Z.mod_mul by (apply Z.pow_nonzero; lia). cbn [Z.eqb option_map].
    rewrite Z.div_mul by (apply Z.pow_nonzero; lia). reflexivity.
Qed.

End NumberArithmetic.

(** ** C1: the overlap test of bookCar *)

(** What the three alternatives of [bookCarOverlap] say about a stored
    booking, read off the filter. *)
Lemma bookCarOverlap_unfold (carId S E : string) (b : Booking.t) :
  Mongo.matches (Booking.doc b) (bookCarOverlap carId S E)
  = ((Booking.carId b =? carId)%string
     && ((String.leb (Booking.rentalStartDate b) E && String.leb S (Booking.rentalEndDate b))
         || (String.leb S (Booking.rentalStartDate b) && String.leb (Booking.rentalStartDate b) E)
         || (String.leb S (Booking.rentalEndDate b) && String.leb (Booking.rentalEndDate b) E))).
Proof.
  unfold bookCarOverlap. cbn.
  repeat rewrite andb_true_r. repeat rewrite orb_false_r.
  rewrite orb_assoc. reflexivity.
Qed.

(** C1.  For a stored booking [existing] whose interval is well formed
    (its start date is not after its end date) and every requested range
    [[newStart, newEnd]], the three-way disjunction bookCar sends to the
    store holds exactly when

      existing.start <= newEnd  AND  existing.end >= newStart

    does (both restricted to the requested car).  The requested range
    itself need not be ordered. *)
Theorem bookCar_overlap_is_single_predicate
  (carId newStart newEnd : string) (existing : Booking.t) :
  String.leb (Booking.rentalStartDate existing) (Booking.rentalEndDate existing) = true ->
  Mongo.matches (Booking.doc existing) (bookCarOverlap carId newStart newEnd)
  = ((Booking.carId existing =? carId)%string
     && (String.leb (Booking.rentalStartDate existing) newEnd
         && String.leb newStart (Booking.rentalEndDate existing))).
Proof.
  intros Hwf. rewrite bookCarOverlap_unfold. f_equal.
  destruct (String.leb (Booking.rentalStartDate existing) newEnd) eqn:HsE;
    destruct (String.leb newStart (Booking.rentalEndDate existing)) eqn:HSe; simpl.
  - reflexivity.
  - (* the stored end is before the requested start *)
    destruct (String.leb newStart (Booking.rentalStartDate existing)) eqn:HSs; simpl;
      [|reflexivity].
    rewrite (string_leb_trans _ _ _ HSs Hwf) in HSe. discriminate.
  - (* the stored start is after the requested end *)
    rewrite andb_false_r. simpl.
    destruct (String.leb (Booking.rentalEndDate existing) newEnd) eqn:HeE;
      [|reflexivity].
    rewrite (string_leb_trans _ _ _ Hwf HeE) in HsE. discriminate.
  - rewrite andb_false_r. reflexivity.
Qed.


(** C1 on the June booking and a request for 2025-06-02 to 2025-06-04:
    both tests find the overlap. *)
Lemma bookCar_overlap_is_single_predicate_witness :
  Mongo.matches (Booking.doc Sample.juneBooking)
                (bookCarOverlap "car1" "2025-06-02" "2025-06-04")
  = ((Booking.carId Sample.juneBooking =? "car1")%string
     && (String.leb (Booking.rentalStartDate Sample.juneBooking) "2025-06-04"
         && String.leb "2025-06-02" (Booking.rentalEndDate Sample.juneBooking))).
Proof.
  apply (bookCar_overlap_is_single_predicate "car1" "2025-06-02" "2025-06-04"
           Sample.juneBooking).
  reflexivity.
Defined.

(** The hypothesis on the stored booking is needed: a record whose start
    is after its end is matched by the second alternative without meeting
    the single predicate. *)
Example bookCarOverlap_reversed_record :
  let reversed :=
    Booking.setRentalStartDate "2025-06-05"
      (Booking.setRentalEndDate "2025-06-01" Sample.juneBooking) in
  Mongo.matches (Booking.doc reversed) (bookCarOverlap "car1" "2025-06-03" "2025-06-06")
  = true
  /\ String.leb (Booking.rentalStartDate reversed) "2025-06-06"
     && String.leb "2025-06-03" (Booking.rentalEndDate reversed) = false.
Proof. split; reflexivity. Qed.

(** ** C2: the overlap re-check of updateBooking *)

Lemma updateBookingOverlap_matches_nothing
  (car : option Car.t) (bookingId : string) (updatedStart updatedEnd : Js.Date)
  (b : Booking.t) :
  Mongo.matches (Booking.doc b) (updateBookingOverlap car bookingId updatedStart updatedEnd)
  = false.
Proof.
  unfold updateBookingOverlap. cbn.
  repeat rewrite andb_false_r. reflexivity.
Qed.

Lemma find_none_of_all_false {A} (p : A -> bool) (l : list A) :
  (forall a, p a = false) -> find p l = None.
Proof.
  intros Hp. induction l as [|a l IH]; simpl; [reflexivity|].
  rewrite Hp. exact IH.
Qed.

(** ** The day count *)

Lemma Qceiling_rentalDuration (e s : Z) :
  Qceiling (rentalDuration e s) = - ((s - e) / Calendar.msPerDay) + 1.
Proof.
  unfold rentalDuration, Qceiling, Qfloor.
  change (inject_Z Calendar.msPerDay) with (86400000 # 1)%Q.
  unfold Qdiv, Qinv, Qmult, Qplus, Qopp, inject_Z. cbn [Qnum Qden].
  change (Z.pos (1 * 86400000)) with 86400000.
  change (Z.pos (1 * 86400000 * 1)) with 86400000.
  change Calendar.msPerDay with 86400000.
  assert (H : - ((e - s) * 1 * 1 + 1 * 86400000) = (s - e) + (-1) * 86400000).
  { lia. }
  rewrite H, (Z.div_add (s - e) (-1) 86400000) by discriminate.
  lia.
Qed.

(** The day count from the whole days [k] the difference rounds up to. *)
Lemma daysRented_of_bounds (e s k : Z) :
  Calendar.msPerDay * (k - 1) < e - s <= Calendar.msPerDay * k ->
  daysRented e s = Z.max 0 (k + 1).
Proof.
  intros Hk. unfold daysRented. rewrite Qceiling_rentalDuration.
  replace ((s - e) / Calendar.msPerDay) with (- k); [rewrite Z.opp_involutive; reflexivity|].
  apply (Z.div_unique (s - e) Calendar.msPerDay (- k) (s - e + Calendar.msPerDay * k)).
  - left. change Calendar.msPerDay with 86400000 in *. lia.
  - ring.
Qed.

Lemma daysRented_bounds (e s : Z) :
  exists k,
    Calendar.msPerDay * (k - 1) < e - s <= Calendar.msPerDay * k
    /\ daysRented e s = Z.max 0 (k + 1).
Proof.
  exists (- ((s - e) / Calendar.msPerDay)). split.
  - pose proof (Z.mul_div_le (s - e) Calendar.msPerDay eq_refl) as Hlow.
    pose proof (Z.mul_succ_div_gt (s - e) Calendar.msPerDay eq_refl) as Hhigh.
    change Calendar.msPerDay with 86400000 in *. lia.
  - unfold daysRented. rewrite Qceiling_rentalDuration. reflexivity.
Qed.

Lemma daysRented_positive (endTime startTime : Z) :
  startTime <= endTime -> 1 <= daysRented endTime startTime.
Proof.
  intros Hordered. unfold daysRented. rewrite Qceiling_rentalDuration.
  assert (Hdiv : (startTime - endTime) / Calendar.msPerDay <= 0).
  { apply Z.div_le_upper_bound; [reflexivity|]. lia. }
  lia.
Qed.

(** Every full day between start and end is counted, and one more. *)
Lemma daysRented_full_days (endTime startTime full : Z) :
  full * Calendar.msPerDay <= endTime - startTime ->
  full + 1 <= daysRented endTime startTime.
Proof.
  intros Hfull. unfold daysRented. rewrite Qceiling_rentalDuration.
  assert (Hdiv : (startTime - endTime) / Calendar.msPerDay <= - full).
  { apply Z.div_le_upper_bound; [reflexivity|]. lia. }
  lia.
Qed.

(** ** Prices *)

(** A day count times an integer rate is the exact product as long as the
    product is below 2^53. *)
Lemma price_of_integer_rate (days rate : Z) :
  0 < days -> 0 < rate -> days * rate < 2 ^ 53 ->
  Js.mul (Js.ofInt days) (Js.ofInt rate) = Js.ofInt (days * rate)
  /\ Js.integerOf (Js.ofInt (days * rate)) = Some (days * rate).
Proof.
  intros Hdays Hrate Hbelow.
  destruct days as [|a|a]; try lia. destruct rate as [|b|b]; try lia.
  change (Z.pos a * Z.pos b) with (Z.pos (a * b)) in *.
  split; [apply mul_ofInt_exact | apply integerOf_ofInt]; exact Hbelow.
Qed.

(** ** Running a handler *)

(** The handler combinators, unfolded together when a handler is traced. *)
Ltac run_handler :=
  cbv beta iota delta
    [try bind ret reply throw exitIf isoDate saveWithPrice
     Car_findById Car_save Booking_findOne Booking_findById_populate
     Booking_insert_checked Booking_insert Booking_save Booking_findByIdAndDelete createInvoice io_emit].

Ltac run_handler_in H :=
  cbv beta iota delta
    [try bind ret reply throw exitIf isoDate saveWithPrice
     Car_findById Car_save Booking_findOne Booking_findById_populate
     Booking_insert_checked Booking_insert Booking_save Booking_findByIdAndDelete createInvoice io_emit] in H.

(** One branch point of a traced handler: case on the test it scrutinises. *)
Ltac branch_in H :=
  match type of H with
  | context [if ?c then _ else _] => destruct c eqn:?
  | context [match ?x with Some _ => _ | None => _ end] => destruct x eqn:?
  end;
  cbv beta iota in H.

(** The same on the goal; a pair bound by a pattern is opened once it is a
    variable. *)
Ltac branch :=
  match goal with
  | |- context [if ?c then _ else _] => destruct c eqn:?
  | |- context [match ?x with Some _ => _ | None => _ end] => destruct x eqn:?
  | |- context [let (_, _) := ?p in _] => is_var p; destruct p
  end;
  cbv beta iota.

(** ** Lists, stores and clocks *)

Lemma find_none_of_none_in {A} (p : A -> bool) (l : list A) :
  (forall a, In a l -> p a = false) -> find p l = None.
Proof.
  induction l as [|a l IH]; simpl; intros Hp; [reflexivity|].
  rewrite (Hp a) by (left; reflexivity).
  apply IH. intros a' Hin. apply Hp. right. exact Hin.
Qed.

Lemma existsb_false_of_none_in {A} (p : A -> bool) (l : list A) :
  (forall a, In a l -> p a = false) -> existsb p l = false.
Proof.
  induction l as [|a l IH]; simpl; intros Hp; [reflexivity|].
  rewrite (Hp a) by (left; reflexivity).
  apply IH. intros a' Hin. apply Hp. right. exact Hin.
Qed.

(** Saving a car under its own id makes it the car found under that id,
    provided some car was. *)
Lemma find_saved_car (saved car : Car.t) (fleet : list Car.t) :
  find (fun c => (Car._id c =? Car._id saved)%string) fleet = Some car ->
  find (fun c => (Car._id c =? Car._id saved)%string)
       (map (fun c' => if (Car._id c' =? Car._id saved)%string then saved else c') fleet)
  = Some saved.
Proof.
  induction fleet as [|c fleet IH]; simpl; [discriminate|].
  destruct (Car._id c =? Car._id saved)%string eqn:Hc.
  - intros _. rewrite String.eqb_refl. reflexivity.
  - rewrite Hc. exact IH.
Qed.

Lemma isSome_false {A} (o : option A) : isSome o = false -> o = None.
Proof. destruct o; [discriminate | reflexivity]. Qed.

Lemma existsb_false_inv {A} (p : A -> bool) (l : list A) :
  existsb p l = false -> forall a, In a l -> p a = false.
Proof.
  intros Hnone a Hin. destruct (p a) eqn:Hp; [|reflexivity].
  rewrite <- Hnone. symmetry. apply existsb_exists. exists a. split; assumption.
Qed.

(** Every clock of the day passes the test [readsOnClock]. *)
Lemma clock_of_the_day (hour minute : Z) :
  0 <= hour < 24 -> 0 <= minute < 60 -> readsOnClock hour minute = true.
Proof.
  intros Hhour Hminute.
  assert (Hall :
            forallb (fun h => forallb (fun m => readsOnClock (Z.of_nat h) (Z.of_nat m))
                                      (seq 0 60))
                    (seq 0 24) = true).
  { vm_compute. reflexivity. }
  rewrite forallb_forall in Hall.
  specialize (Hall (Z.to_nat hour)). rewrite forallb_forall in Hall.
  specialize (Hall ltac:(apply in_seq; lia) (Z.to_nat minute) ltac:(apply in_seq; lia)).
  rewrite !Z2Nat.id in Hall by lia. exact Hall.
Qed.

(** What [bookCar] stores for a clock of the day. *)
Lemma clock_reading (hour minute : Z) :
  0 <= hour < 24 -> 0 <= minute < 60 ->
  isClock (clockText hour minute) = true
  /\ Js.truthy (Some (clockText hour minute)) = true
  /\ formatTimeTo12Hour (clockText hour minute)
     = Some (Js.toString (if hour mod 12 =? 0 then 12 else hour mod 12)%Z
             ++ ":" ++ Js.padStart0 2 (Js.toString minute)
             ++ " " ++ (if (12 <=? hour)%Z then "PM" else "AM"))%string.
Proof.
  intros Hhour Hminute.
  pose proof (clock_of_the_day hour minute Hhour Hminute) as Hreads.
  unfold readsOnClock in Hreads.
  apply andb_true_iff in Hreads. destruct Hreads as [Hreads Htext].
  apply andb_true_iff in Hreads. destruct Hreads as [Hclock Hfilled].
  split; [exact Hclock|]. split; [exact Hfilled|].
  destruct (formatTimeTo12Hour (clockText hour minute)) as [reading|]; [|discriminate].
  apply String.eqb_eq in Htext. rewrite Htext. reflexivity.
Qed.

(** ** What a created booking tells *)

(** Everything a 201 of bookCar implies: the checks that were passed and
    the world that results. *)
Lemma bookCar_created
  (rt : Runtime) (req : BookCarReq.t) (w w' : World) (r : Response) :
  bookCar rt req w = (r, w') ->
  status r = 201 ->
  exists car startTime endTime booking snapshot,
    missingField req = false
    /\ findCar (Js.text (BookCarReq.carId req)) w = Some car
    /\ Car.availability car = "Available"%string
    /\ find (fun b => Mongo.matches (Booking.doc b) (requestedOverlap req)) (bookings w) = None
    /\ requestedStart rt req = Some startTime
    /\ requestedEnd rt req = Some endTime
    /\ now rt <= startTime
    /\ startTime <= endTime
    /\ existsb (fun b' => (Booking._id b' =? newObjectId rt)%string) (bookings w) = false
    /\ Booking._id booking = newObjectId rt
    /\ Booking.carId booking = Js.text (BookCarReq.carId req)
    /\ Booking.userId booking = BookCarReq.user req
    /\ cars w' = map (fun c' => if (Car._id c' =? Car._id car)%string
                                then Car.setAvailability "Rented Out" car else c') (cars w)
    /\ bookings w' = bookings w ++ [booking]
    /\ invoices w' = invoices w ++ [snapshot]
    /\ emitted w' = emitted w
    /\ Booking.totalPrice booking
       = Js.mul (Js.ofInt (daysRented endTime startTime)) (Car.rentRate car)
    /\ Js.isNaN (Booking.totalPrice booking) = false
    /\ json r = WithInvoice "Car booked successfully" booking
                  (invoiceUrlOf (BookCarReq.protocol req) (BookCarReq.host req)
                                (newObjectId rt)).
Proof.
  intros Hrun Hok.
  unfold requestedStart, requestedEnd, requestedOverlap.
  unfold bookCar in Hrun.
  destruct (missingField req) eqn:Hfields in Hrun.
  { inversion Hrun; subst; discriminate. }
  run_handler_in Hrun.
  repeat (branch_in Hrun; try (inversion Hrun; subst; discriminate)).
  injection Hrun as <- <-.
  repeat match goal with
         | H : negb _ = false |- _ => apply negb_false_iff, String.eqb_eq in H
         | H : isSome _ = false |- _ => apply isSome_false in H
         | H : Js.lt (Some _) (Some _) = false |- _ => cbn [Js.lt] in H; apply Z.ltb_ge in H
         | H : existsb _ _ = false |- _ => progress cbn [Booking._id] in H
         | H : Js.isNaN _ = false |- _ =>
             progress cbn [Booking.totalPrice priceOf daysRentedOf] in H
         end.
  do 5 eexists.
  repeat match goal with |- _ /\ _ => split end; try eassumption; try reflexivity.
  all: try reflexivity.
  all: cbn [Booking.totalPrice]; assumption.
Qed.

(** ** C3: the day count of bookCar *)



(** ** C4: the price of a created booking *)

(** C4, as the code has it.  Whenever bookCar answers 201, the booking it
    returns is stored in the Booking collection and its totalPrice is the
    product of Numbers [daysRented * car.rentRate], for the day count (at
    least 1) of the parsed start and end and the rate of the requested car.
    For a rate that is a positive integer the price is the exact product
    as long as that product is below 2^53. *)
Theorem bookCar_totalPrice
  (rt : Runtime) (req : BookCarReq.t) (w w' : World) (r : Response) :
  bookCar rt req w = (r, w') ->
  status r = 201 ->
  exists car startTime endTime booking invoiceUrl,
    findCar (Js.text (BookCarReq.carId req)) w = Some car
    /\ requestedStart rt req = Some startTime
    /\ requestedEnd rt req = Some endTime
    /\ json r = WithInvoice "Car booked successfully" booking invoiceUrl
    /\ In booking (bookings w')
    /\ 1 <= daysRented endTime startTime
    /\ Booking.totalPrice booking
       = Js.mul (Js.ofInt (daysRented endTime startTime)) (Car.rentRate car)
    /\ (forall rate,
           0 < rate ->
           Car.rentRate car = Js.ofInt rate ->
           daysRented endTime startTime * rate < 2 ^ 53 ->
           Booking.totalPrice booking = Js.ofInt (daysRented endTime startTime * rate)
           /\ Js.integerOf (Booking.totalPrice booking)
              = Some (daysRented endTime startTime * rate)).
Proof.
  intros Hrun Hok.
  destruct (bookCar_created rt req w w' r Hrun Hok)
    as (car & startTime & endTime & booking & snapshot & _ & Hcar & _ & _ & Hstart
        & Hend & _ & Hordered & _ & _ & _ & _ & _ & Hbookings & _ & _ & Hprice & _ & Hjson).
  pose proof (daysRented_positive endTime startTime Hordered) as Hdays.
  exists car, startTime, endTime, booking. eexists.
  repeat match goal with |- _ /\ _ => split end; try eassumption.
  - rewrite Hbookings. apply in_or_app. right. left. reflexivity.
  - intros rate Hrate Hinteger Hbelow.
    destruct (price_of_integer_rate (daysRented endTime startTime) rate) as [Hexact Hvalue];
      try assumption; try lia.
    rewrite Hprice, Hinteger, Hexact. split; [reflexivity | exact Hvalue].
Qed.

(** C4 on the sample fleet. *)
Lemma bookCar_totalPrice_witness :
  exists car startTime endTime booking invoiceUrl,
    findCar "car1" Sample.fleet = Some car
    /\ Iso.parse 0 "2025-06-01T10:00:00+05:00" = Some startTime
    /\ Iso.parse 0 "2025-06-03T10:00:00+05:00" = Some endTime
    /\ json (fst (bookCar (Sample.runtimeAt Sample.may2025 "booking1")
                          Sample.juneRequest Sample.fleet))
       = WithInvoice "Car booked successfully" booking invoiceUrl
    /\ In booking (bookings Sample.booked)
    /\ 1 <= daysRented endTime startTime
    /\ Booking.totalPrice booking
       = Js.mul (Js.ofInt (daysRented endTime startTime)) (Car.rentRate car)
    /\ (forall rate,
           0 < rate ->
           Car.rentRate car = Js.ofInt rate ->
           daysRented endTime startTime * rate < 2 ^ 53 ->
           Booking.totalPrice booking = Js.ofInt (daysRented endTime startTime * rate)
           /\ Js.integerOf (Booking.totalPrice booking)
              = Some (daysRented endTime startTime * rate)).
Proof.
  apply (bookCar_totalPrice (Sample.runtimeAt Sample.may2025 "booking1")
           Sample.juneRequest Sample.fleet Sample.booked
           (fst (bookCar (Sample.runtimeAt Sample.may2025 "booking1")
                         Sample.juneRequest Sample.fleet))).
  - apply surjective_pairing.
  - vm_compute. reflexivity.
Defined.

(** The price is not the exact product for every positive rate.  At
    3002399751580331 a day, an integer that is a Number, the June request
    is charged three days and the stored price is 9007199254740992, one
    less than three times the rate: the product is not a Number and is
    rounded to the nearest one. *)
Lemma bookCar_totalPrice_is_rounded :
  findCar "car1" Scenario.costlyFleet = Some Scenario.costlyCar
  /\ Js.integerOf (Car.rentRate Scenario.costlyCar) = Some 3002399751580331
  /\ daysRentedOf
       (requestedEnd (Sample.runtimeAt Sample.may2025 "booking1") Sample.juneRequest)
       (requestedStart (Sample.runtimeAt Sample.may2025 "booking1") Sample.juneRequest)
     = Some 3
  /\ status (fst (bookCar (Sample.runtimeAt Sample.may2025 "booking1")
                          Sample.juneRequest Scenario.costlyFleet)) = 201
  /\ (exists booking invoiceUrl,
         json (fst (bookCar (Sample.runtimeAt Sample.may2025 "booking1")
                            Sample.juneRequest Scenario.costlyFleet))
         = WithInvoice "Car booked successfully" booking invoiceUrl
         /\ bookings (snd (bookCar (Sample.runtimeAt Sample.may2025 "booking1")
                                   Sample.juneRequest Scenario.costlyFleet))
            = [booking]
         /\ Js.integerOf (Booking.totalPrice booking) = Some 9007199254740992)
  /\ 3 * 3002399751580331 = 9007199254740993.
Proof.
  split; [reflexivity|]. split; [vm_compute; reflexivity|].
  split; [vm_compute; reflexivity|]. split; [vm_compute; reflexivity|].
  split; [|reflexivity].
  do 2 eexists. split; [vm_compute; reflexivity|].
  split; vm_compute; reflexivity.
Qed.

(** ** C5: a booking that goes through *)

(** C5, as the code has it.  A request with every field present whose two
    clocks are clocks of the day [HH:MM], for an available car none of
    whose stored bookings is matched by the three alternatives of the
    overlap check, whose start and end are dates with [now <= start <= end]
    and whose price is a number, is answered 201.  The booking that is
    stored and returned has the fresh id, the requested car, user and
    showroom, the two dates in ISO form, the two clocks in 12-hour form and
    the price [(k + 1) * rentRate] for the [k] whole days the difference
    rounds up to; one invoice is requested for the same data, the car is
    stored as Rented Out, nothing is emitted, and the invoice URL is built
    from the protocol, the host and the id of the booking. *)
Theorem bookCar_succeeds
  (rt : Runtime) (w : World) (car : Car.t)
  (carId showroomId startDate endDate user protocol host : string)
  (startHour startMinute endHour endMinute startTime endTime k : Z) :
  carId <> ""%string ->
  showroomId <> ""%string ->
  startDate <> ""%string ->
  endDate <> ""%string ->
  0 <= startHour < 24 ->
  0 <= startMinute < 60 ->
  0 <= endHour < 24 ->
  0 <= endMinute < 60 ->
  findCar carId w = Some car ->
  Car.availability car = "Available"%string ->
  (forall b, In b (bookings w) ->
             Booking.carId b = carId ->
             (String.leb (Booking.rentalStartDate b) endDate
              && String.leb startDate (Booking.rentalEndDate b))
             || (String.leb startDate (Booking.rentalStartDate b)
                 && String.leb (Booking.rentalStartDate b) endDate)
             || (String.leb startDate (Booking.rentalEndDate b)
                 && String.leb (Booking.rentalEndDate b) endDate)
             = false) ->
  Date_parse rt (startDate ++ "T" ++ clockText startHour startMinute ++ ":00+05:00")%string
  = Some startTime ->
  Date_parse rt (endDate ++ "T" ++ clockText endHour endMinute ++ ":00+05:00")%string
  = Some endTime ->
  now rt <= startTime ->
  startTime <= endTime ->
  Calendar.msPerDay * (k - 1) < endTime - startTime <= Calendar.msPerDay * k ->
  Js.isNaN (Js.mul (Js.ofInt (k + 1)) (Car.rentRate car)) = false ->
  (forall b, In b (bookings w) -> Booking._id b <> newObjectId rt) ->
  exists booking rented w',
    bookCar rt
      {| BookCarReq.carId := Some carId;
         BookCarReq.showroomId := Some showroomId;
         BookCarReq.rentalStartDate := Some startDate;
         BookCarReq.rentalStartTime := Some (clockText startHour startMinute);
         BookCarReq.rentalEndDate := Some endDate;
         BookCarReq.rentalEndTime := Some (clockText endHour endMinute);
         BookCarReq.user := user;
         BookCarReq.protocol := protocol;
         BookCarReq.host := host |} w
    = ({| status := 201;
          json := WithInvoice "Car booked successfully" booking
                    (protocol ++ "://" ++ host ++ "/api/bookcar/invoices/invoice_"
                     ++ newObjectId rt ++ ".pdf")%string |}, w')
    /\ booking
       = {| Booking._id := newObjectId rt;
            Booking.carId := carId;
            Booking.userId := user;
            Booking.showroomId := showroomId;
            Booking.rentalStartDate := Calendar.toISODate startTime;
            Booking.rentalStartTime :=
              (Js.toString (if startHour mod 12 =? 0 then 12 else startHour mod 12)%Z
               ++ ":" ++ Js.padStart0 2 (Js.toString startMinute)
               ++ " " ++ (if (12 <=? startHour)%Z then "PM" else "AM"))%string;
            Booking.rentalEndDate := Calendar.toISODate endTime;
            Booking.rentalEndTime :=
              (Js.toString (if endHour mod 12 =? 0 then 12 else endHour mod 12)%Z
               ++ ":" ++ Js.padStart0 2 (Js.toString endMinute)
               ++ " " ++ (if (12 <=? endHour)%Z then "PM" else "AM"))%string;
            Booking.totalPrice := Js.mul (Js.ofInt (k + 1)) (Car.rentRate car) |}
    /\ rented
       = {| Car._id := Car._id car;
            Car.availability := "Rented Out";
            Car.rentRate := Car.rentRate car;
            Car.userId := Car.userId car |}
    /\ bookings w' = bookings w ++ [booking]
    /\ invoices w'
       = invoices w
         ++ [{| Invoice._id := newObjectId rt;
                Invoice.carId := carId;
                Invoice.userId := user;
                Invoice.rentalStartDate := Booking.rentalStartDate booking;
                Invoice.rentalEndDate := Booking.rentalEndDate booking;
                Invoice.rentalStartTime := Booking.rentalStartTime booking;
                Invoice.rentalEndTime := Booking.rentalEndTime booking;
                Invoice.totalPrice := Booking.totalPrice booking |}]
    /\ cars w' = map (fun c => if (Car._id c =? carId)%string then rented else c) (cars w)
    /\ findCar carId w' = Some rented
    /\ emitted w' = emitted w.
Proof.
  intros HcarId Hshowroom HstartDate HendDate HstartHour HstartMinute HendHour HendMinute
         Hcar Havailable Hfree Hstart Hend Hfuture Hordered Hdays Hprice Hfresh.
  destruct (clock_reading startHour startMinute HstartHour HstartMinute)
    as (_ & HstartGiven & HstartText).
  destruct (clock_reading endHour endMinute HendHour HendMinute)
    as (_ & HendGiven & HendText).
  assert (Hid : Car._id car = carId).
  { apply find_some in Hcar. apply String.eqb_eq. apply Hcar. }
  assert (Hcount : daysRented endTime startTime = k + 1).
  { rewrite (daysRented_of_bounds endTime startTime k Hdays).
    change Calendar.msPerDay with 86400000 in Hdays. lia. }
  apply String.eqb_neq in HcarId, Hshowroom, HstartDate, HendDate.
  do 3 eexists. split; [|split; [reflexivity|split; [reflexivity|]]].
  - unfold bookCar, missingField.
    cbn [BookCarReq.carId BookCarReq.showroomId BookCarReq.rentalStartDate
         BookCarReq.rentalStartTime BookCarReq.rentalEndDate BookCarReq.rentalEndTime
         BookCarReq.user BookCarReq.protocol BookCarReq.host Js.text].
    rewrite HstartGiven, HendGiven. cbn [Js.truthy].
    rewrite HcarId, Hshowroom, HstartDate, HendDate. cbn [negb orb].
    run_handler.
    rewrite Hcar. cbv beta iota.
    rewrite Havailable, String.eqb_refl. cbn [negb]. cbv beta iota.
    rewrite find_none_of_none_in.
    2:{ intros b Hin. rewrite bookCarOverlap_unfold.
        destruct (String.eqb_spec (Booking.carId b) carId) as [Hsame|_]; [|reflexivity].
        rewrite (Hfree b Hin Hsame). reflexivity. }
    cbn [isSome]. cbv beta iota.
    rewrite Hstart, Hend. cbn [Js.lt].
    rewrite (proj2 (Z.ltb_ge startTime (now rt)) Hfuture). cbv beta iota.
    rewrite (proj2 (Z.ltb_ge endTime startTime) Hordered). cbv beta iota.
    rewrite HstartText, HendText.
    cbn [daysRentedOf priceOf Booking._id Booking.totalPrice]. cbv beta iota.
    rewrite Hcount, Hprice.
    rewrite existsb_false_of_none_in.
    + cbv beta iota. unfold invoiceUrlOf. reflexivity.
    + intros b Hin. apply String.eqb_neq. apply Hfresh. exact Hin.
  - cbn [bookings invoices cars emitted Booking.rentalStartDate Booking.rentalEndDate
         Booking.rentalStartTime Booking.rentalEndTime Booking.totalPrice].
    repeat match goal with |- _ /\ _ => split end; try reflexivity.
    + unfold Car.setAvailability. cbn [Car._id]. rewrite Hid. reflexivity.
    + unfold findCar. cbn [cars]. rewrite <- Hid.
      apply (find_saved_car
             {| Car._id := Car._id car; Car.availability := "Rented Out";
                Car.rentRate := Car.rentRate car; Car.userId := Car.userId car |} car).
      cbn [Car._id]. rewrite Hid. exact Hcar.
Qed.

(** C5 on the sample fleet, with an earlier booking of the car on record:
    the June request, 10:00 to 10:00 two days later, three days at 100. *)
Lemma bookCar_succeeds_witness :
  exists booking rented w',
    bookCar (Sample.runtimeAt Sample.may2025 "booking1") Sample.juneRequest
            Sample.fleetWithHistory
    = ({| status := 201;
          json := WithInvoice "Car booked successfully" booking
                    "https://swiftride.example/api/bookcar/invoices/invoice_booking1.pdf" |},
       w')
    /\ booking
       = {| Booking._id := "booking1";
            Booking.carId := "car1";
            Booking.userId := "user1";
            Booking.showroomId := "showroom1";
            Booking.rentalStartDate := "2025-06-01";
            Booking.rentalStartTime := "10:00 AM";
            Booking.rentalEndDate := "2025-06-03";
            Booking.rentalEndTime := "10:00 AM";
            Booking.totalPrice := Js.mul (Js.ofInt 3) (Js.ofInt 100) |}
    /\ rented
       = {| Car._id := "car1";
            Car.availability := "Rented Out";
            Car.rentRate := Js.ofInt 100;
            Car.userId := "owner1" |}
    /\ bookings w' = [Sample.mayBooking; booking]
    /\ invoices w'
       = [{| Invoice._id := "booking1";
             Invoice.carId := "car1";
             Invoice.userId := "user1";
             Invoice.rentalStartDate := "2025-06-01";
             Invoice.rentalEndDate := "2025-06-03";
             Invoice.rentalStartTime := "10:00 AM";
             Invoice.rentalEndTime := "10:00 AM";
             Invoice.totalPrice := Js.mul (Js.ofInt 3) (Js.ofInt 100) |}]
    /\ cars w' = [rented]
    /\ findCar "car1" w' = Some rented
    /\ emitted w' = [].
Proof.
  destruct (bookCar_succeeds (Sample.runtimeAt Sample.may2025 "booking1")
              Sample.fleetWithHistory Sample.car1
              "car1" "showroom1" "2025-06-01" "2025-06-03" "user1" "https"
              "swiftride.example" 10 0 10 0 1748754000000 1748926800000 2)
    as (booking & rented & w' & Hrun & -> & -> & Hbookings & Hinvoices & Hcars & Hfound
        & Hemitted).
  - discriminate.
  - discriminate.
  - discriminate.
  - discriminate.
  - lia.
  - lia.
  - lia.
  - lia.
  - reflexivity.
  - reflexivity.
  - intros b [<-|[]] _. reflexivity.
  - reflexivity.
  - reflexivity.
  - vm_compute. discriminate.
  - vm_compute. discriminate.
  - vm_compute. split; [reflexivity | discriminate].
  - vm_compute. reflexivity.
  - intros b [<-|[]]. discriminate.
  - do 3 eexists. split; [exact Hrun|].
    split; [reflexivity|]. split; [reflexivity|].
    split; [exact Hbookings|]. split; [exact Hinvoices|].
    split; [exact Hcars|]. split; [exact Hfound | exact Hemitted].
Defined.

(** Without the condition on the clocks the request does not go through.
    With each clock given as the hour alone ("10"), the car is available,
    no booking is on record, both dates are valid (the text built for the
    start is "2025-06-01T10:00+05:00") and in order, after the current
    time; but the clock has no minute to format, and the answer is 500 with
    nothing stored. *)
Lemma bookCar_bare_hour_fails :
  missingField Scenario.bareHourRequest = false
  /\ findCar "car1" Sample.fleet = Some Sample.car1
  /\ Car.availability Sample.car1 = "Available"%string
  /\ bookings Sample.fleet = []
  /\ requestedStart (Sample.runtimeAt Sample.may2025 "booking1") Scenario.bareHourRequest
     = Some 1748754000000
  /\ requestedEnd (Sample.runtimeAt Sample.may2025 "booking1") Scenario.bareHourRequest
     = Some 1748926800000
  /\ now (Sample.runtimeAt Sample.may2025 "booking1") <= 1748754000000 <= 1748926800000
  /\ bookCar (Sample.runtimeAt Sample.may2025 "booking1") Scenario.bareHourRequest
             Sample.fleet
     = ({| status := 500; json := Message "Server error. Please try again later." |},
        Sample.fleet)
  /\ status (fst (bookCar (Sample.runtimeAt Sample.may2025 "booking1")
                          Scenario.bareHourRequest Sample.fleet)) <> 201.
Proof.
  repeat match goal with |- _ /\ _ => split end;
    vm_compute; first [reflexivity | discriminate].
Qed.

(** ** C6: cancelling somebody else's booking *)

(** C6.  When no stored booking has both the requested id and the
    requesting user, cancelBooking answers 404 and the world is the one it
    started from: no car is saved and no booking is deleted. *)
Theorem cancelBooking_not_owner (req : CancelReq.t) (w : World) :
  (forall b, In b (bookings w) ->
             ~ (Booking._id b = CancelReq.bookingId req
                /\ Booking.userId b = CancelReq.user req)) ->
  cancelBooking req w
  = ({| status := 404; json := Message "Booking not found or unauthorized access." |}, w).
Proof.
  intros Hnone.
  unfold cancelBooking. run_handler.
  rewrite find_none_of_none_in; [reflexivity|].
  intros b Hin. cbn.
  destruct (String.eqb_spec (Booking._id b) (CancelReq.bookingId req)) as [Hid|Hid];
    [|reflexivity].
  destruct (String.eqb_spec (Booking.userId b) (CancelReq.user req)) as [Huser|Huser];
    [|reflexivity].
  exfalso. apply (Hnone b Hin). split; assumption.
Qed.

(** C6 on the sample fleet: [user2] cannot cancel the booking of [user1]. *)
Lemma cancelBooking_not_owner_witness :
  cancelBooking Sample.strangerCancels Sample.booked
  = ({| status := 404; json := Message "Booking not found or unauthorized access." |},
     Sample.booked).
Proof.
  apply (cancelBooking_not_owner Sample.strangerCancels Sample.booked).
  intros b [<-|[]] [_ Huser]. discriminate Huser.
Defined.

(** ** C2, stated on the handler *)

(** C2.  The filter of the re-check in updateBooking names the paths
    [rentalStart] and [rentalEnd], which no stored booking has; so the
    query finds no booking in any collection, and no run of updateBooking
    ends in the response of the overlap conflict. *)
Theorem updateBooking_overlap_recheck_finds_nothing :
  (forall car bookingId updatedStart updatedEnd w,
      Booking_findOne (updateBookingOverlap car bookingId updatedStart updatedEnd) w
      = (Next None, w))
  /\ (forall rt req w,
         fst (updateBooking rt req w)
         <> {| status := 400;
               json := Message "The car is already booked for the selected dates." |}).
Proof.
  split.
  - intros. unfold Booking_findOne.
    rewrite find_none_of_all_false; [reflexivity|].
    intros b. apply updateBookingOverlap_matches_nothing.
  - intros rt req w. unfold updateBooking. run_handler.
    repeat (branch; try (cbn [fst]; discriminate)).
    all: match goal with
         | H : isSome (find _ _) = true |- _ =>
             rewrite find_none_of_all_false in H;
             [discriminate H | intros b; apply updateBookingOverlap_matches_nothing]
         end.
Qed.

(** ** The June scenario *)

(** The scenario of the specification: 100 a day from 2025-06-01 to
    2025-06-03 costs 300 and leaves the car Rented Out. *)
Example june_scenario :
  bookings Sample.booked = [Sample.juneBooking]
  /\ Js.integerOf (Booking.totalPrice Sample.juneBooking) = Some (3 * 100)
  /\ option_map Car.availability (findCar "car1" Sample.booked) = Some "Rented Out"%string.
Proof. repeat match goal with |- _ /\ _ => split end; vm_compute; reflexivity. Qed.

(** ** C8: a car that is not available *)

(** C8, as the code has it.  When the requested car exists and its
    availability is not Available, bookCar answers 400 and writes nothing;
    with every required field present the message is the one of the
    availability check. *)
Theorem bookCar_unavailable
  (rt : Runtime) (req : BookCarReq.t) (w : World) (car : Car.t) :
  findCar (Js.text (BookCarReq.carId req)) w = Some car ->
  Car.availability car <> "Available"%string ->
  status (fst (bookCar rt req w)) = 400
  /\ snd (bookCar rt req w) = w
  /\ (missingField req = false ->
      json (fst (bookCar rt req w)) = Message "Car is not available for booking.").
Proof.
  intros Hcar Hrented.
  apply String.eqb_neq in Hrented.
  unfold bookCar. destruct (missingField req).
  - repeat split. discriminate.
  - run_handler. rewrite Hcar. cbv beta iota. rewrite Hrented. cbn [negb].
    cbv beta iota. repeat split.
Qed.

(** C8 on the sample fleet, once the car is rented out. *)
Lemma bookCar_unavailable_witness :
  status (fst (bookCar (Sample.runtimeAt Sample.may2025 "booking2")
                       Sample.juneRequest Sample.booked)) = 400
  /\ snd (bookCar (Sample.runtimeAt Sample.may2025 "booking2")
                  Sample.juneRequest Sample.booked) = Sample.booked
  /\ (missingField Sample.juneRequest = false ->
      json (fst (bookCar (Sample.runtimeAt Sample.may2025 "booking2")
                         Sample.juneRequest Sample.booked))
      = Message "Car is not available for booking.").
Proof.
  apply (bookCar_unavailable (Sample.runtimeAt Sample.may2025 "booking2")
           Sample.juneRequest Sample.booked
           (Car.setAvailability "Rented Out" Sample.car1)).
  - reflexivity.
  - discriminate.
Defined.

(** The status is not 409: on the rented-out car of the sample fleet the
    handler answers 400. *)
Lemma bookCar_unavailable_is_not_409 :
  findCar "car1" Sample.booked = Some (Car.setAvailability "Rented Out" Sample.car1)
  /\ Car.availability (Car.setAvailability "Rented Out" Sample.car1) <> "Available"%string
  /\ status (fst (bookCar (Sample.runtimeAt Sample.may2025 "booking2")
                          Sample.juneRequest Sample.booked)) = 400
  /\ status (fst (bookCar (Sample.runtimeAt Sample.may2025 "booking2")
                          Sample.juneRequest Sample.booked)) <> 409.
Proof.
  repeat match goal with |- _ /\ _ => split end;
    vm_compute; first [reflexivity | discriminate].
Qed.

(** ** C9: asking to return a car *)

(** C9.  When the booking and its car resolve, Return_car answers 200 with
    its acknowledgement and the only change to the world is one more
    emitted event, on the channel [notification] followed by the user id of
    the car's owner, with the fixed message; the Car and Booking collections
    (so the car's availability too) and the invoices are as before. *)
Theorem Return_car_only_notifies
  (BookingId : string) (w : World) (booking : Booking.t) (car : Car.t) :
  findBooking BookingId w = Some booking ->
  findCar (Booking.carId booking) w = Some car ->
  exists w',
    Return_car BookingId w
    = ({| status := 200;
          json := Message "Return request sent to showroom  owner for approved" |}, w')
    /\ emitted w'
       = emitted w ++ [(("notification" ++ Car.userId car)%string,
                        "Car return request recieved"%string)]
    /\ cars w' = cars w
    /\ bookings w' = bookings w
    /\ invoices w' = invoices w.
Proof.
  intros Hbooking Hcar. unfold findBooking in Hbooking.
  assert (Hagain : findCar (Car._id car) w = Some car).
  { pose proof (find_some _ _ Hcar) as [_ Hid]. apply String.eqb_eq in Hid.
    rewrite Hid. exact Hcar. }
  eexists. split.
  - unfold Return_car. run_handler.
    rewrite Hbooking, Hcar. cbv beta iota. rewrite Hagain. cbv beta iota.
    reflexivity.
  - repeat split.
Qed.

(** C9 on the sample fleet: the owner of the car is told, nothing is
    stored. *)
Lemma Return_car_only_notifies_witness :
  exists w',
    Return_car "booking1" Sample.booked
    = ({| status := 200;
          json := Message "Return request sent to showroom  owner for approved" |}, w')
    /\ emitted w'
       = emitted Sample.booked
         ++ [(("notification" ++ Car.userId (Car.setAvailability "Rented Out" Sample.car1))%string,
              "Car return request recieved"%string)]
    /\ cars w' = cars Sample.booked
    /\ bookings w' = bookings Sample.booked
    /\ invoices w' = invoices Sample.booked.
Proof.
  apply (Return_car_only_notifies "booking1" Sample.booked Sample.juneBooking
           (Car.setAvailability "Rented Out" Sample.car1)).
  - reflexivity.
  - reflexivity.
Defined.

(** ** C7: updates and extensions once the rental has begun *)

(** The runtime of the sample fleet keeps the order of dates through the
    locale round trip. *)
Lemma Iso_wallClockKeepsOrder (clock serverOffset : Z) (objectId : string) :
  wallClockKeepsOrder (Iso.runtime clock serverOffset objectId).
Proof.
  intros a b Hab. unfold Iso.runtime, Iso.wallClock. cbn [karachiWallClock].
  do 2 eexists. repeat split.
  pose proof (Z.div_le_mono a b 1000 eq_refl Hab). lia.
Qed.

(** What the guards do for a booking whose stored start the runtime reads
    as a date: once the clock has reached it, extendBooking refuses and
    stores nothing. *)
Lemma extendBooking_refuses_started
  (rt : Runtime) (req : ExtendReq.t) (w : World) (booking : Booking.t) (start : Z) :
  findBooking (ExtendReq.bookingId req) w = Some booking ->
  storedStart rt booking = Some start ->
  start <= now rt ->
  extendBooking rt req w
  = ({| status := 400;
        json := Message "You can only extend the booking before the rental start time." |},
     w).
Proof.
  intros Hfound Hstart Hpast. unfold findBooking in Hfound. unfold storedStart in Hstart.
  unfold extendBooking. run_handler.
  rewrite Hfound. cbv beta iota. rewrite Hstart. cbn [Js.le].
  rewrite (proj2 (Z.leb_le start (now rt)) Hpast). reflexivity.
Qed.

(** The same for updateBooking, which compares the two dates after the
    locale round trip. *)
Lemma updateBooking_refuses_started
  (rt : Runtime) (req : UpdateReq.t) (w : World) (booking : Booking.t) (start : Z) :
  wallClockKeepsOrder rt ->
  findBooking (UpdateReq.bookingId req) w = Some booking ->
  storedStart rt booking = Some start ->
  start <= now rt ->
  updateBooking rt req w
  = ({| status := 400;
        json := Message "You can only update the booking before the rental start time." |},
     w).
Proof.
  intros Hclock Hfound Hstart Hpast.
  unfold findBooking in Hfound. unfold storedStart in Hstart.
  destruct (Hclock start (now rt) Hpast) as (localStart & localNow & Hls & Hln & Hle).
  unfold updateBooking. run_handler.
  rewrite Hfound. cbv beta iota. rewrite Hstart. cbn [toKarachi].
  rewrite Hls, Hln. cbn [Js.ge Js.le].
  rewrite (proj2 (Z.leb_le localStart localNow) Hle). reflexivity.
Qed.

(** C7, where the code departs from it.  bookCar stores the clock of a
    booking in 12-hour form ("10:00 AM"), and the date the guards build
    from "2025-06-01T10:00 AM" is an Invalid Date, so their comparison is
    false whatever the clock says.  On the sample fleet, half a year after
    the rental of 2025-06-01 began, updateBooking answers 200 and stores the
    booking moved to February 2026; extendBooking passes its guard as well
    and only stops at the price. *)
Theorem updateBooking_after_start_goes_through :
  findBooking "booking1" Sample.booked = Some Sample.juneBooking
  /\ requestedStart (Sample.runtimeAt Sample.may2025 "booking1") Sample.juneRequest
     = Some 1748754000000
  /\ 1748754000000 <= now (Sample.runtimeAt Sample.december2025 "")
  /\ storedStart (Sample.runtimeAt Sample.december2025 "") Sample.juneBooking = None
  /\ fst (updateBooking (Sample.runtimeAt Sample.december2025 "")
                        Sample.lateUpdate Sample.booked)
     = {| status := 200;
          json := WithBooking "Booking updated successfully" Sample.movedBooking |}
  /\ bookings (snd (updateBooking (Sample.runtimeAt Sample.december2025 "")
                                  Sample.lateUpdate Sample.booked))
     = [Sample.movedBooking]
  /\ extendBooking (Sample.runtimeAt Sample.december2025 "")
                   Sample.lateExtend Sample.booked
     = ({| status := 400; json := Message "Failed to calculate total price." |},
        Sample.booked).
Proof.
  repeat match goal with |- _ /\ _ => split end;
    vm_compute; first [reflexivity | discriminate].
Qed.

(** ** C10: updates that leave the start alone *)

(** What the code does for a stored booking whose start the runtime reads
    as a date and whose first guard lets the request through: a request
    with neither a new start date nor a new start time is answered 400 by
    one of the two date-order checks (the start it recomputes is the
    previous start, so if the end is after it the strictly-later check
    refuses), and nothing is stored. *)
Lemma updateBooking_end_only_is_refused
  (rt : Runtime) (req : UpdateReq.t) (w : World) (booking : Booking.t)
  (start localStart : Z) :
  findBooking (UpdateReq.bookingId req) w = Some booking ->
  Js.truthy (UpdateReq.rentalStartDate req) = false ->
  Js.truthy (UpdateReq.rentalStartTime req) = false ->
  storedStart rt booking = Some start ->
  karachiWallClock rt start = Some localStart ->
  updateGuard rt booking = false ->
  exists message,
    updateBooking rt req w = ({| status := 400; json := Message message |}, w)
    /\ (message = "Rental end time must be after the rental start time."%string
        \/ message
           = "New rental start time must be after the previous rental start time."%string).
Proof.
  intros Hfound HnoDate HnoTime Hstart Hlocal Hguard.
  unfold findBooking in Hfound. unfold updateGuard in Hguard.
  unfold storedStart in Hstart, Hguard.
  unfold updateBooking. run_handler.
  rewrite Hfound. cbv beta iota. rewrite Hguard. cbv beta iota.
  unfold override. rewrite HnoDate, HnoTime.
  destruct (Js.truthy (UpdateReq.rentalEndDate req)),
           (Js.truthy (UpdateReq.rentalEndTime req));
    cbv beta iota;
    cbn [Booking.rentalStartDate Booking.rentalStartTime
         Booking.setRentalEndDate Booking.setRentalEndTime];
    rewrite Hstart; cbn [toKarachi]; rewrite Hlocal;
    match goal with
    | |- context [Js.le ?e (Some localStart)] =>
        destruct (Js.le e (Some localStart)) eqn:Hend
    end;
    cbv beta iota;
    try (eexists; split; [reflexivity | left; reflexivity]);
    cbn [Js.le]; rewrite Z.leb_refl; cbv beta iota;
    eexists; split; try reflexivity; right; reflexivity.
Qed.

(** Whatever is stored and whatever the clock says, a request with
    neither a new start date nor a new start time stores nothing: when the
    recomputed start is a date the strictly-later check refuses at the
    latest, and when it is not the price is NaN and the save is refused. *)
Lemma updateBooking_end_only_stores_nothing
  (rt : Runtime) (req : UpdateReq.t) (w : World) :
  Js.truthy (UpdateReq.rentalStartDate req) = false ->
  Js.truthy (UpdateReq.rentalStartTime req) = false ->
  snd (updateBooking rt req w) = w.
Proof.
  intros HnoDate HnoTime.
  unfold updateBooking. run_handler.
  destruct (find _ (bookings w)) as [booking|]; [|reflexivity]. cbv beta iota.
  unfold override. rewrite HnoDate, HnoTime.
  destruct (Js.truthy (UpdateReq.rentalEndDate req)),
           (Js.truthy (UpdateReq.rentalEndTime req));
    cbv beta iota;
    cbn [Booking.rentalStartDate Booking.rentalStartTime
         Booking.setRentalEndDate Booking.setRentalEndTime];
    destruct (toKarachi rt (Date_parse rt (Booking.rentalStartDate booking ++ "T"
                                           ++ Booking.rentalStartTime booking)%string))
      as [localStart|];
    repeat (branch; try reflexivity);
    match goal with
    | H : Js.le (Some ?t) (Some ?t) = false |- _ =>
        cbn [Js.le] in H; rewrite Z.leb_refl in H; discriminate H
    | H : Js.isNaN (priceOf (daysRentedOf ?e None) _) = false |- _ =>
        destruct e; discriminate H
    end.
Qed.

(** C10, where the code departs from it.  The booking bookCar made for
    June is not yet started in May, and the request leaves its start alone;
    but bookCar stored the start clock as "10:00 AM", the date updateBooking
    builds from "2025-06-01T10:00 AM" is an Invalid Date, and no comparison
    with it holds.  So neither date-order check refuses, the request runs on
    to the save, which refuses the NaN price, and the answer is 500, not a
    validation error; nothing is stored. *)
Theorem updateBooking_end_only_unread_start :
  findBooking "booking1" Sample.booked = Some Sample.juneBooking
  /\ requestedStart (Sample.runtimeAt Sample.may2025 "booking1") Sample.juneRequest
     = Some 1748754000000
  /\ now (Sample.runtimeAt Sample.may2025 "") < 1748754000000
  /\ UpdateReq.rentalStartDate Sample.endOnlyUpdate = None
  /\ UpdateReq.rentalStartTime Sample.endOnlyUpdate = None
  /\ updateBooking (Sample.runtimeAt Sample.may2025 "") Sample.endOnlyUpdate Sample.booked
     = ({| status := 500; json := Failure "Error updating booking" |}, Sample.booked)
  /\ status (fst (updateBooking (Sample.runtimeAt Sample.may2025 "")
                                Sample.endOnlyUpdate Sample.booked)) <> 400.
Proof.
  repeat match goal with |- _ /\ _ => split end;
    vm_compute; first [reflexivity | discriminate].
Qed.

(* ================================================================== *)
(** * Further properties of the handlers *)
(* ================================================================== *)

(** ** Answers other than success *)

Ltac settle_unchanged :=
  cbn [fst snd status]; first [left; reflexivity | right; reflexivity].

(** X1.  A handler that does not answer with its success status has
    written nothing: bookCar leaves the world as it was unless it answers
    201, and updateBooking, extendBooking, cancelBooking and Return_car
    unless they answer 200. *)
Theorem handlers_write_only_on_success :
  (forall rt req w,
      snd (bookCar rt req w) = w \/ status (fst (bookCar rt req w)) = 201)
  /\ (forall rt req w,
         snd (updateBooking rt req w) = w \/ status (fst (updateBooking rt req w)) = 200)
  /\ (forall rt req w,
         snd (extendBooking rt req w) = w \/ status (fst (extendBooking rt req w)) = 200)
  /\ (forall req w,
         snd (cancelBooking req w) = w \/ status (fst (cancelBooking req w)) = 200)
  /\ (forall BookingId w,
         snd (Return_car BookingId w) = w \/ status (fst (Return_car BookingId w)) = 200).
Proof.
  split; [|split; [|split; [|split]]].
  - intros rt req w. unfold bookCar.
    destruct (missingField req); [left; reflexivity|].
    run_handler. repeat (branch; try settle_unchanged).
  - intros rt req w. unfold updateBooking. run_handler.
    repeat (branch; try settle_unchanged).
  - intros rt req w. unfold extendBooking. run_handler.
    repeat (branch; try settle_unchanged).
  - intros req w. unfold cancelBooking. run_handler.
    repeat (branch; try settle_unchanged).
  - intros BookingId w. unfold Return_car. run_handler.
    repeat (branch; try settle_unchanged).
Qed.

(** ** What a 201 of bookCar implies *)

(** X2.  bookCar answers 201 only after every check has passed: the car
    exists and is Available, no stored booking is matched by the overlap
    filter, both dates are valid with [now <= start <= end], and no stored
    booking has the id of the new one. *)
Theorem bookCar_created_only_when_valid
  (rt : Runtime) (req : BookCarReq.t) (w w' : World) (r : Response) :
  bookCar rt req w = (r, w') ->
  status r = 201 ->
  exists car startTime endTime,
    missingField req = false
    /\ findCar (Js.text (BookCarReq.carId req)) w = Some car
    /\ Car.availability car = "Available"%string
    /\ (forall b, In b (bookings w) ->
                  Mongo.matches (Booking.doc b) (requestedOverlap req) = false)
    /\ requestedStart rt req = Some startTime
    /\ requestedEnd rt req = Some endTime
    /\ now rt <= startTime <= endTime
    /\ (forall b, In b (bookings w) -> Booking._id b <> newObjectId rt).
Proof.
  intros Hrun Hok.
  destruct (bookCar_created rt req w w' r Hrun Hok)
    as (car & startTime & endTime & booking & snapshot & Hfields & Hcar & Havailable
        & Hfree & Hstart & Hend & Hfuture & Hordered & Hfresh & _).
  exists car, startTime, endTime.
  repeat match goal with |- _ /\ _ => split end; try assumption.
  - intros b Hin. exact (find_none _ _ Hfree b Hin).
  - intros b Hin. apply String.eqb_neq.
    exact (existsb_false_inv _ _ Hfresh b Hin).
Qed.

(** X2 on the sample fleet. *)
Lemma bookCar_created_only_when_valid_witness :
  exists car startTime endTime,
    missingField Sample.juneRequest = false
    /\ findCar "car1" Sample.fleet = Some car
    /\ Car.availability car = "Available"%string
    /\ (forall b, In b (bookings Sample.fleet) ->
                  Mongo.matches (Booking.doc b) (requestedOverlap Sample.juneRequest) = false)
    /\ requestedStart (Sample.runtimeAt Sample.may2025 "booking1") Sample.juneRequest
       = Some startTime
    /\ requestedEnd (Sample.runtimeAt Sample.may2025 "booking1") Sample.juneRequest
       = Some endTime
    /\ now (Sample.runtimeAt Sample.may2025 "booking1") <= startTime <= endTime
    /\ (forall b, In b (bookings Sample.fleet) -> Booking._id b <> "booking1"%string).
Proof.
  apply (bookCar_created_only_when_valid (Sample.runtimeAt Sample.may2025 "booking1")
           Sample.juneRequest Sample.fleet Sample.booked
           (fst (bookCar (Sample.runtimeAt Sample.may2025 "booking1")
                         Sample.juneRequest Sample.fleet))).
  - apply surjective_pairing.
  - vm_compute. reflexivity.
Defined.

(** ** The checks of bookCar, one by one *)

Lemma find_some_of_in {A} (p : A -> bool) (l : list A) (a : A) :
  In a l -> p a = true -> exists a', find p l = Some a'.
Proof.
  induction l as [|x l IH]; simpl; [intros []|].
  intros [->|Hin] Hp.
  - rewrite Hp. eexists. reflexivity.
  - destruct (p x); [eexists; reflexivity | exact (IH Hin Hp)].
Qed.

(** A request with every field, for a car that is there and Available. *)
Ltac enter_bookCar Hfields Hcar Havailable :=
  unfold bookCar; rewrite Hfields; run_handler;
  rewrite Hcar; cbv beta iota;
  rewrite Havailable, String.eqb_refl; cbn [negb]; cbv beta iota.

(** X3.  A request for an available car is refused with 400 "The car is
    already booked for the selected dates." and nothing is written, as soon
    as one stored booking of that car starts on or before the requested end
    date and ends on or after the requested start date. *)
Theorem bookCar_overlap_rejected
  (rt : Runtime) (req : BookCarReq.t) (w : World) (car : Car.t) (existing : Booking.t) :
  missingField req = false ->
  findCar (Js.text (BookCarReq.carId req)) w = Some car ->
  Car.availability car = "Available"%string ->
  In existing (bookings w) ->
  Booking.carId existing = Js.text (BookCarReq.carId req) ->
  String.leb (Booking.rentalStartDate existing)
             (Js.text (BookCarReq.rentalEndDate req)) = true ->
  String.leb (Js.text (BookCarReq.rentalStartDate req))
             (Booking.rentalEndDate existing) = true ->
  bookCar rt req w
  = ({| status := 400;
        json := Message "The car is already booked for the selected dates." |}, w).
Proof.
  intros Hfields Hcar Havailable Hin Hsame Hstart Hend.
  destruct (find_some_of_in
              (fun b => Mongo.matches (Booking.doc b)
                          (bookCarOverlap (Js.text (BookCarReq.carId req))
                                          (Js.text (BookCarReq.rentalStartDate req))
                                          (Js.text (BookCarReq.rentalEndDate req))))
              (bookings w) existing Hin) as [hit Hhit].
  { rewrite bookCarOverlap_unfold, Hsame, String.eqb_refl, Hstart, Hend. reflexivity. }
  enter_bookCar Hfields Hcar Havailable.
  rewrite Hhit. reflexivity.
Qed.

(** X3 on the June booking and a request for 2025-06-02 to 2025-06-04. *)
Lemma bookCar_overlap_rejected_witness :
  bookCar (Sample.runtimeAt Sample.may2025 "booking2") Scenario.overlappingRequest
          Scenario.juneOnRecord
  = ({| status := 400;
        json := Message "The car is already booked for the selected dates." |},
     Scenario.juneOnRecord).
Proof.
  apply (bookCar_overlap_rejected (Sample.runtimeAt Sample.may2025 "booking2")
           Scenario.overlappingRequest Scenario.juneOnRecord Sample.car1
           Sample.juneBooking).
  - reflexivity.
  - reflexivity.
  - reflexivity.
  - left. reflexivity.
  - reflexivity.
  - reflexivity.
  - reflexivity.
Defined.

(** X4.  With the car free for the requested dates and both dates valid,
    a start before the current time is refused with 400 "Rental start date
    must be in the present or future.", and otherwise an end before the
    start with 400 "End date must be after the start date."; nothing is
    written either way. *)
Theorem bookCar_date_order
  (rt : Runtime) (req : BookCarReq.t) (w : World) (car : Car.t)
  (startTime endTime : Z) :
  missingField req = false ->
  findCar (Js.text (BookCarReq.carId req)) w = Some car ->
  Car.availability car = "Available"%string ->
  (forall b, In b (bookings w) ->
             Mongo.matches (Booking.doc b) (requestedOverlap req) = false) ->
  requestedStart rt req = Some startTime ->
  requestedEnd rt req = Some endTime ->
  (startTime < now rt ->
   bookCar rt req w
   = ({| status := 400;
         json := Message "Rental start date must be in the present or future." |}, w))
  /\ (now rt <= startTime -> endTime < startTime ->
      bookCar rt req w
      = ({| status := 400; json := Message "End date must be after the start date." |}, w)).
Proof.
  intros Hfields Hcar Havailable Hfree Hstart Hend.
  unfold requestedStart in Hstart. unfold requestedEnd in Hend.
  unfold requestedOverlap in Hfree.
  split.
  - intros Hpast. enter_bookCar Hfields Hcar Havailable.
    rewrite (find_none_of_none_in _ _ Hfree). cbn [isSome]. cbv beta iota.
    rewrite Hstart. cbn [Js.lt].
    rewrite (proj2 (Z.ltb_lt startTime (now rt)) Hpast). reflexivity.
  - intros Hfuture Hbackwards. enter_bookCar Hfields Hcar Havailable.
    rewrite (find_none_of_none_in _ _ Hfree). cbn [isSome]. cbv beta iota.
    rewrite Hstart, Hend. cbn [Js.lt].
    rewrite (proj2 (Z.ltb_ge startTime (now rt)) Hfuture). cbv beta iota.
    rewrite (proj2 (Z.ltb_lt endTime startTime) Hbackwards). reflexivity.
Qed.

(** X4 on the sample fleet: the June request served in December, and a
    request that ends the day before it starts. *)
Lemma bookCar_date_order_witness :
  bookCar (Sample.runtimeAt Sample.december2025 "booking1") Sample.juneRequest Sample.fleet
  = ({| status := 400;
        json := Message "Rental start date must be in the present or future." |},
     Sample.fleet)
  /\ bookCar (Sample.runtimeAt Sample.may2025 "booking1") Scenario.backwardsRequest
             Sample.fleet
     = ({| status := 400; json := Message "End date must be after the start date." |},
        Sample.fleet).
Proof.
  split.
  - apply (bookCar_date_order (Sample.runtimeAt Sample.december2025 "booking1")
             Sample.juneRequest Sample.fleet Sample.car1 1748754000000 1748926800000);
      try reflexivity.
    intros b [].
  - apply (bookCar_date_order (Sample.runtimeAt Sample.may2025 "booking1")
             Scenario.backwardsRequest Sample.fleet Sample.car1
             1748926800000 1748840400000);
      try reflexivity.
    + intros b [].
    + vm_compute. discriminate.
Defined.

(** X5.  A date the runtime cannot read is not a validation error: with
    the car free for the requested dates, an unreadable start is answered
    500, and so is an unreadable end whose start is valid and not in the
    past; nothing is written. *)
Theorem bookCar_unreadable_date
  (rt : Runtime) (req : BookCarReq.t) (w : World) (car : Car.t) :
  missingField req = false ->
  findCar (Js.text (BookCarReq.carId req)) w = Some car ->
  Car.availability car = "Available"%string ->
  (forall b, In b (bookings w) ->
             Mongo.matches (Booking.doc b) (requestedOverlap req) = false) ->
  (requestedStart rt req = None ->
   bookCar rt req w
   = ({| status := 500; json := Message "Server error. Please try again later." |}, w))
  /\ (forall startTime,
         requestedStart rt req = Some startTime -> now rt <= startTime ->
         requestedEnd rt req = None ->
         bookCar rt req w
         = ({| status := 500; json := Message "Server error. Please try again later." |}, w)).
Proof.
  intros Hfields Hcar Havailable Hfree.
  unfold requestedStart, requestedEnd. unfold requestedOverlap in Hfree.
  split.
  - intros Hstart. enter_bookCar Hfields Hcar Havailable.
    rewrite (find_none_of_none_in _ _ Hfree). cbn [isSome]. cbv beta iota.
    rewrite Hstart.
    match goal with |- context [Js.lt ?e None] => destruct e end; reflexivity.
  - intros startTime Hstart Hfuture Hend. enter_bookCar Hfields Hcar Havailable.
    rewrite (find_none_of_none_in _ _ Hfree). cbn [isSome]. cbv beta iota.
    rewrite Hstart, Hend. cbn [Js.lt].
    rewrite (proj2 (Z.ltb_ge startTime (now rt)) Hfuture). reflexivity.
Qed.

(** X5 on the sample fleet, for the start date "next week". *)
Lemma bookCar_unreadable_date_witness :
  bookCar (Sample.runtimeAt Sample.may2025 "booking1") Scenario.garbledRequest Sample.fleet
  = ({| status := 500; json := Message "Server error. Please try again later." |},
     Sample.fleet).
Proof.
  apply (bookCar_unreadable_date (Sample.runtimeAt Sample.may2025 "booking1")
           Scenario.garbledRequest Sample.fleet Sample.car1); try reflexivity.
  intros b [].
Defined.

(** ** Booking, then booking or cancelling *)

(** X6.  Once bookCar has answered 201, every further complete request for
    the same car, whatever its dates and whenever it comes, is refused
    with 400 "Car is not available for booking." and writes nothing. *)
Theorem bookCar_twice_refused
  (rt : Runtime) (req : BookCarReq.t) (w w' : World) (r : Response)
  (rt2 : Runtime) (req2 : BookCarReq.t) :
  bookCar rt req w = (r, w') ->
  status r = 201 ->
  missingField req2 = false ->
  Js.text (BookCarReq.carId req2) = Js.text (BookCarReq.carId req) ->
  bookCar rt2 req2 w'
  = ({| status := 400; json := Message "Car is not available for booking." |}, w').
Proof.
  intros Hrun Hok Hfields Hsame.
  destruct (bookCar_created rt req w w' r Hrun Hok)
    as (car & startTime & endTime & booking & snapshot & _ & Hcar & _ & _ & _ & _ & _ & _
        & _ & _ & _ & _ & Hcars & _).
  assert (Hid : Car._id car = Js.text (BookCarReq.carId req)).
  { apply find_some in Hcar. apply String.eqb_eq. apply Hcar. }
  assert (Hrented : findCar (Js.text (BookCarReq.carId req2)) w'
                    = Some (Car.setAvailability "Rented Out" car)).
  { unfold findCar. rewrite Hcars, Hsame, <- Hid.
    apply (find_saved_car (Car.setAvailability "Rented Out" car) car).
    cbn [Car._id Car.setAvailability]. rewrite Hid. exact Hcar. }
  unfold bookCar. rewrite Hfields. run_handler.
  rewrite Hrented. reflexivity.
Qed.

(** X6 on the sample fleet: the overlapping request after the June one. *)
Lemma bookCar_twice_refused_witness :
  bookCar (Sample.runtimeAt Sample.december2025 "booking2") Scenario.overlappingRequest
          Sample.booked
  = ({| status := 400; json := Message "Car is not available for booking." |},
     Sample.booked).
Proof.
  apply (bookCar_twice_refused (Sample.runtimeAt Sample.may2025 "booking1")
           Sample.juneRequest Sample.fleet Sample.booked
           (fst (bookCar (Sample.runtimeAt Sample.may2025 "booking1")
                         Sample.juneRequest Sample.fleet))
           (Sample.runtimeAt Sample.december2025 "booking2")
           Scenario.overlappingRequest).
  - apply surjective_pairing.
  - vm_compute. reflexivity.
  - reflexivity.
  - reflexivity.
Defined.

(** The filter of cancelBooking, read off on a stored booking. *)
Lemma ownerFilter_unfold (bookingId userId : string) (b : Booking.t) :
  Mongo.matches (Booking.doc b)
    (Mongo.All [ Mongo.Field "_id" [Mongo.Eq (Mongo.VId bookingId)];
                 Mongo.Field "userId" [Mongo.Eq (Mongo.VId userId)] ])
  = ((Booking._id b =? bookingId)%string && (Booking.userId b =? userId)%string).
Proof. cbn. repeat rewrite andb_true_r. reflexivity. Qed.

Lemma find_ext {A} (p q : A -> bool) (l : list A) :
  (forall a, p a = q a) -> find p l = find q l.
Proof.
  intros Hpq. induction l as [|a l IH]; simpl; [reflexivity|].
  rewrite Hpq, IH. reflexivity.
Qed.

(** The first element under [p] is the first under [p && q] when it
    satisfies [q]. *)
Lemma find_refined {A} (p q : A -> bool) (l : list A) (a : A) :
  find p l = Some a -> q a = true -> find (fun x => p x && q x) l = Some a.
Proof.
  induction l as [|x l IH]; simpl; [discriminate|].
  destruct (p x) eqn:Hp; simpl.
  - intros Hx Hq. injection Hx as ->. rewrite Hq. reflexivity.
  - exact IH.
Qed.

Lemma find_after_removal {A} (p : A -> bool) (l : list A) :
  find p (filter (fun a => negb (p a)) l) = None.
Proof.
  induction l as [|a l IH]; simpl; [reflexivity|].
  destruct (p a) eqn:Hp; simpl; [exact IH|]. rewrite Hp. exact IH.
Qed.

(** The run of cancelBooking for the owner of a stored booking. *)
Lemma cancelBooking_run (req : CancelReq.t) (w : World) (booking : Booking.t) :
  findBooking (CancelReq.bookingId req) w = Some booking ->
  Booking.userId booking = CancelReq.user req ->
  cancelBooking req w
  = ({| status := 200; json := Message "Booking canceled successfully." |},
     {| cars :=
          match findCar (Booking.carId booking) w with
          | Some car =>
              map (fun c' => if (Car._id c' =? Car._id car)%string
                             then Car.setAvailability "Available" car else c') (cars w)
          | None => cars w
          end;
        bookings :=
          filter (fun b => negb (Booking._id b =? CancelReq.bookingId req)%string)
                 (bookings w);
        invoices := invoices w;
        emitted := emitted w |}).
Proof.
  intros Hfound Howner. unfold findBooking in Hfound.
  unfold cancelBooking. run_handler.
  rewrite (find_ext _ _ _ (ownerFilter_unfold (CancelReq.bookingId req) (CancelReq.user req))).
  rewrite (find_refined _ (fun b => (Booking.userId b =? CancelReq.user req)%string)
             _ _ Hfound)
    by (apply String.eqb_eq; exact Howner).
  cbv beta iota.
  destruct (findCar (Booking.carId booking) w); reflexivity.
Qed.

(** X7.  When the stored booking of that id belongs to the requesting
    user, cancelBooking answers 200, removes the booking (no booking of
    that id is left, the others stay in order), stores its car as
    Available when the car exists and leaves the Car collection alone when
    it does not; no invoice is requested and nothing is emitted. *)
Theorem cancelBooking_owner (req : CancelReq.t) (w : World) (booking : Booking.t) :
  findBooking (CancelReq.bookingId req) w = Some booking ->
  Booking.userId booking = CancelReq.user req ->
  exists w',
    cancelBooking req w
    = ({| status := 200; json := Message "Booking canceled successfully." |}, w')
    /\ bookings w'
       = filter (fun b => negb (Booking._id b =? CancelReq.bookingId req)%string)
                (bookings w)
    /\ findBooking (CancelReq.bookingId req) w' = None
    /\ (forall car, findCar (Booking.carId booking) w = Some car ->
                    findCar (Booking.carId booking) w'
                    = Some (Car.setAvailability "Available" car))
    /\ (findCar (Booking.carId booking) w = None -> cars w' = cars w)
    /\ invoices w' = invoices w
    /\ emitted w' = emitted w.
Proof.
  intros Hfound Howner.
  eexists. split; [exact (cancelBooking_run req w booking Hfound Howner)|].
  cbn [cars bookings invoices emitted]. unfold findBooking. cbn [bookings].
  repeat match goal with |- _ /\ _ => split end; try reflexivity.
  - apply (find_after_removal
             (fun b => (Booking._id b =? CancelReq.bookingId req)%string)).
  - intros car Hcar. rewrite Hcar. unfold findCar. cbn [cars].
    assert (Hid : Car._id car = Booking.carId booking).
    { apply find_some in Hcar. apply String.eqb_eq. apply Hcar. }
    rewrite <- Hid.
    apply (find_saved_car (Car.setAvailability "Available" car) car).
    cbn [Car._id Car.setAvailability]. rewrite Hid. exact Hcar.
  - intros Hnone. rewrite Hnone. reflexivity.
Qed.

(** X7 on the sample fleet: [user1] cancels the June booking. *)
Lemma cancelBooking_owner_witness :
  exists w',
    cancelBooking Scenario.ownerCancels Sample.booked
    = ({| status := 200; json := Message "Booking canceled successfully." |}, w')
    /\ bookings w'
       = filter (fun b => negb (Booking._id b =? "booking1")%string)
                (bookings Sample.booked)
    /\ findBooking "booking1" w' = None
    /\ (forall car, findCar "car1" Sample.booked = Some car ->
                    findCar "car1" w' = Some (Car.setAvailability "Available" car))
    /\ (findCar "car1" Sample.booked = None -> cars w' = cars Sample.booked)
    /\ invoices w' = invoices Sample.booked
    /\ emitted w' = emitted Sample.booked.
Proof.
  apply (cancelBooking_owner Scenario.ownerCancels Sample.booked Sample.juneBooking).
  - reflexivity.
  - reflexivity.
Defined.

Lemma car_ids_after_save (saved : Car.t) (fleet : list Car.t) :
  map Car._id (map (fun c' => if (Car._id c' =? Car._id saved)%string then saved else c')
                   fleet)
  = map Car._id fleet.
Proof.
  induction fleet as [|c fleet IH]; simpl; [reflexivity|].
  rewrite IH. destruct (String.eqb_spec (Car._id c) (Car._id saved)) as [Hid|_];
    [rewrite Hid|]; reflexivity.
Qed.

Lemma filter_keeps_all {A} (p : A -> bool) (l : list A) :
  (forall a, In a l -> p a = true) -> filter p l = l.
Proof.
  induction l as [|a l IH]; simpl; intros Hp; [reflexivity|].
  rewrite (Hp a) by (left; reflexivity). f_equal.
  apply IH. intros a' Hin. apply Hp. right. exact Hin.
Qed.

Lemma find_app_fresh {A} (p : A -> bool) (l : list A) (a : A) :
  existsb p l = false -> p a = true -> find p (l ++ [a]) = Some a.
Proof.
  induction l as [|x l IH]; simpl; intros Hfresh Hp.
  - rewrite Hp. reflexivity.
  - apply orb_false_iff in Hfresh. destruct Hfresh as [Hx Hl].
    rewrite Hx. exact (IH Hl Hp).
Qed.

(** X8.  Cancelling a booking that bookCar has just created, as the user
    who made it, undoes the creation in both collections: the Booking
    collection is the one before the booking, the requested car is found
    exactly as it was found before (Available again), and the fleet has the
    same cars. *)
Theorem book_then_cancel_restores
  (rt : Runtime) (req : BookCarReq.t) (w w' : World) (r : Response) :
  bookCar rt req w = (r, w') ->
  status r = 201 ->
  exists w'',
    cancelBooking {| CancelReq.bookingId := newObjectId rt;
                     CancelReq.user := BookCarReq.user req |} w'
    = ({| status := 200; json := Message "Booking canceled successfully." |}, w'')
    /\ bookings w'' = bookings w
    /\ findCar (Js.text (BookCarReq.carId req)) w''
       = findCar (Js.text (BookCarReq.carId req)) w
    /\ map Car._id (cars w'') = map Car._id (cars w).
Proof.
  intros Hrun Hok.
  destruct (bookCar_created rt req w w' r Hrun Hok)
    as (car & startTime & endTime & booking & snapshot & _ & Hcar & Havailable & _ & _ & _
        & _ & _ & Hfresh & Hbid & Hbcar & Hbuser & Hcars & Hbookings & _ & _).
  assert (Hid : Car._id car = Js.text (BookCarReq.carId req)).
  { apply find_some in Hcar. apply String.eqb_eq. apply Hcar. }
  assert (Hrented : findCar (Booking.carId booking) w'
                    = Some (Car.setAvailability "Rented Out" car)).
  { unfold findCar. rewrite Hcars, Hbcar, <- Hid.
    apply (find_saved_car (Car.setAvailability "Rented Out" car) car).
    cbn [Car._id Car.setAvailability]. rewrite Hid. exact Hcar. }
  assert (Hfound : findBooking (newObjectId rt) w' = Some booking).
  { unfold findBooking. rewrite Hbookings.
    apply find_app_fresh; [exact Hfresh|]. apply String.eqb_eq. exact Hbid. }
  eexists. split.
  { apply (cancelBooking_run
             {| CancelReq.bookingId := newObjectId rt;
                CancelReq.user := BookCarReq.user req |} w' booking).
    - exact Hfound.
    - exact Hbuser. }
  cbn [cars bookings CancelReq.bookingId]. rewrite Hrented.
  repeat match goal with |- _ /\ _ => split end.
  - rewrite Hbookings, filter_app. cbn [filter].
    rewrite Hbid, String.eqb_refl. cbn [negb]. rewrite app_nil_r.
    apply filter_keeps_all. intros b Hin. apply negb_true_iff.
    exact (existsb_false_inv _ _ Hfresh b Hin).
  - unfold findCar at 1. cbn [cars]. rewrite Hcar.
    cbn [Car._id Car.setAvailability]. rewrite Hcars, <- Hid.
    rewrite (find_saved_car
               {| Car._id := Car._id car; Car.availability := "Available";
                  Car.rentRate := Car.rentRate car; Car.userId := Car.userId car |}
               (Car.setAvailability "Rented Out" car)).
    + destruct car as [id availability rate owner]. cbn in Havailable |- *.
      rewrite Havailable. reflexivity.
    + cbn [Car._id].
      apply (find_saved_car (Car.setAvailability "Rented Out" car) car).
      cbn [Car._id Car.setAvailability]. rewrite Hid. exact Hcar.
  - rewrite (car_ids_after_save
               (Car.setAvailability "Available" (Car.setAvailability "Rented Out" car))).
    rewrite Hcars.
    apply (car_ids_after_save (Car.setAvailability "Rented Out" car)).
Qed.

(** X8 on the sample fleet. *)
Lemma book_then_cancel_restores_witness :
  exists w'',
    cancelBooking Scenario.ownerCancels Sample.booked
    = ({| status := 200; json := Message "Booking canceled successfully." |}, w'')
    /\ bookings w'' = bookings Sample.fleet
    /\ findCar "car1" w'' = findCar "car1" Sample.fleet
    /\ map Car._id (cars w'') = map Car._id (cars Sample.fleet).
Proof.
  apply (book_then_cancel_restores (Sample.runtimeAt Sample.may2025 "booking1")
           Sample.juneRequest Sample.fleet Sample.booked
           (fst (bookCar (Sample.runtimeAt Sample.may2025 "booking1")
                         Sample.juneRequest Sample.fleet))).
  - apply surjective_pairing.
  - vm_compute. reflexivity.
Defined.

(** ** What the handlers keep *)

Ltac settle_footprint :=
  cbn [snd cars bookings invoices emitted];
  repeat match goal with |- _ /\ _ => split end;
  first [reflexivity | apply car_ids_after_save].

(** X10.  The footprint of each handler, whatever the request and the
    answer: no handler adds or removes a car (bookCar and cancelBooking
    keep the ids of the fleet, the other three keep the Car collection as
    it is); only bookCar and extendBooking request invoices; only
    Return_car emits, and it touches neither collection. *)
Theorem handlers_footprint :
  (forall rt req w,
      map Car._id (cars (snd (bookCar rt req w))) = map Car._id (cars w)
      /\ emitted (snd (bookCar rt req w)) = emitted w)
  /\ (forall rt req w,
         cars (snd (updateBooking rt req w)) = cars w
         /\ invoices (snd (updateBooking rt req w)) = invoices w
         /\ emitted (snd (updateBooking rt req w)) = emitted w)
  /\ (forall rt req w,
         cars (snd (extendBooking rt req w)) = cars w
         /\ emitted (snd (extendBooking rt req w)) = emitted w)
  /\ (forall req w,
         map Car._id (cars (snd (cancelBooking req w))) = map Car._id (cars w)
         /\ invoices (snd (cancelBooking req w)) = invoices w
         /\ emitted (snd (cancelBooking req w)) = emitted w)
  /\ (forall BookingId w,
         cars (snd (Return_car BookingId w)) = cars w
         /\ bookings (snd (Return_car BookingId w)) = bookings w
         /\ invoices (snd (Return_car BookingId w)) = invoices w).
Proof.
  split; [|split; [|split; [|split]]].
  - intros rt req w. unfold bookCar.
    destruct (missingField req); [split; reflexivity|].
    run_handler. repeat (branch; try settle_footprint).
  - intros rt req w. unfold updateBooking. run_handler.
    repeat (branch; try settle_footprint).
  - intros rt req w. unfold extendBooking. run_handler.
    repeat (branch; try settle_footprint).
  - intros req w. unfold cancelBooking. run_handler.
    repeat (branch; try settle_footprint).
  - intros BookingId w. unfold Return_car. run_handler.
    repeat (branch; try settle_footprint).
Qed.

(** ** extendBooking and updateBooking when they go through *)

Lemma find_saved_booking (saved found : Booking.t) (stored : list Booking.t) :
  find (fun b => (Booking._id b =? Booking._id saved)%string) stored = Some found ->
  find (fun b => (Booking._id b =? Booking._id saved)%string) (withSaved saved stored)
  = Some saved.
Proof.
  unfold withSaved. induction stored as [|b stored IH]; simpl; [discriminate|].
  destruct (Booking._id b =? Booking._id saved)%string eqn:Hb.
  - intros _. rewrite String.eqb_refl. reflexivity.
  - rewrite Hb. exact IH.
Qed.

(** The filter of the re-check in extendBooking, read off on a stored
    booking: another booking of the same car that starts on or before the
    new end date and ends on or after the start date. *)
Lemma extendBookingOverlap_unfold
  (car : Car.t) (bookingId : string) (booking b : Booking.t) :
  Mongo.matches (Booking.doc b) (extendBookingOverlap (Some car) bookingId booking)
  = ((Booking.carId b =? Car._id car)%string
     && negb (Booking._id b =? bookingId)%string
     && (String.leb (Booking.rentalStartDate b) (Booking.rentalEndDate booking)
         && String.leb (Booking.rentalStartDate booking) (Booking.rentalEndDate b))).
Proof.
  unfold extendBookingOverlap. cbn.
  repeat rewrite andb_true_r. repeat rewrite orb_false_r.
  rewrite andb_assoc. reflexivity.
Qed.

(** X11.  extendBooking goes through for a booking that has not started
    (its stored start is a date after the current time) when the new end
    date is a date, the new end time is a clock of the day [HH:MM], the end
    built from the two is after the start, no other booking of the car
    starts on or before the new end date and ends on or after the start
    date, and the price is a positive number.  The answer is 200 with the
    invoice URL built from the protocol, the host and the booking id; the
    stored booking keeps everything but its end date, its end time and its
    price, which is [(k + 1) * rentRate] for the [k] whole days the
    difference rounds up to; one invoice is requested for the same data,
    and nothing else changes. *)
Theorem extendBooking_extends
  (rt : Runtime) (w : World) (booking : Booking.t) (car : Car.t)
  (bookingId endDate protocol host : string)
  (endHour endMinute start endAsDate newEnd k : Z) :
  findBooking bookingId w = Some booking ->
  findCar (Booking.carId booking) w = Some car ->
  storedStart rt booking = Some start ->
  now rt < start ->
  endDate <> ""%string ->
  Date_parse rt endDate = Some endAsDate ->
  0 <= endHour < 24 ->
  0 <= endMinute < 60 ->
  Date_parse rt (endDate ++ "T" ++ clockText endHour endMinute)%string = Some newEnd ->
  start < newEnd ->
  Calendar.msPerDay * (k - 1) < newEnd - start <= Calendar.msPerDay * k ->
  (forall b, In b (bookings w) ->
             Booking.carId b = Car._id car ->
             Booking._id b <> bookingId ->
             String.leb (Booking.rentalStartDate b) endDate
             && String.leb (Booking.rentalStartDate booking) (Booking.rentalEndDate b)
             = false) ->
  Js.isNaN (Js.mul (Js.ofInt (k + 1)) (Car.rentRate car)) = false ->
  Js.notPositive (Js.mul (Js.ofInt (k + 1)) (Car.rentRate car)) = false ->
  exists extended w',
    extendBooking rt
      {| ExtendReq.bookingId := bookingId;
         ExtendReq.rentalEndDate := Some endDate;
         ExtendReq.rentalEndTime := Some (clockText endHour endMinute);
         ExtendReq.protocol := protocol;
         ExtendReq.host := host |} w
    = ({| status := 200;
          json := WithInvoice "Booking extended successfully" extended
                    (protocol ++ "://" ++ host ++ "/api/bookcar/invoices/invoice_"
                     ++ bookingId ++ ".pdf")%string |}, w')
    /\ extended
       = {| Booking._id := bookingId;
            Booking.carId := Booking.carId booking;
            Booking.userId := Booking.userId booking;
            Booking.showroomId := Booking.showroomId booking;
            Booking.rentalStartDate := Booking.rentalStartDate booking;
            Booking.rentalStartTime := Booking.rentalStartTime booking;
            Booking.rentalEndDate := endDate;
            Booking.rentalEndTime := clockText endHour endMinute;
            Booking.totalPrice := Js.mul (Js.ofInt (k + 1)) (Car.rentRate car) |}
    /\ bookings w'
       = map (fun b => if (Booking._id b =? bookingId)%string then extended else b)
             (bookings w)
    /\ findBooking bookingId w' = Some extended
    /\ invoices w'
       = invoices w
         ++ [{| Invoice._id := bookingId;
                Invoice.carId := Car._id car;
                Invoice.userId := Booking.userId booking;
                Invoice.rentalStartDate := Booking.rentalStartDate booking;
                Invoice.rentalEndDate := endDate;
                Invoice.rentalStartTime := Booking.rentalStartTime booking;
                Invoice.rentalEndTime := clockText endHour endMinute;
                Invoice.totalPrice := Js.mul (Js.ofInt (k + 1)) (Car.rentRate car) |}]
    /\ cars w' = cars w
    /\ emitted w' = emitted w.
Proof.
  intros Hfound Hcar Hstart Hfuture HendDate HasDate HendHour HendMinute Hend Hordered
         Hdays Hfree Hnumber Hpositive.
  destruct (clock_reading endHour endMinute HendHour HendMinute) as (Hclock & Hgiven & _).
  assert (Hid : Booking._id booking = bookingId).
  { apply find_some in Hfound. apply String.eqb_eq. apply Hfound. }
  assert (Hcount : daysRented newEnd start = k + 1).
  { rewrite (daysRented_of_bounds newEnd start k Hdays).
    change Calendar.msPerDay with 86400000 in Hdays. lia. }
  apply String.eqb_neq in HendDate.
  unfold storedStart in Hstart. unfold findBooking in Hfound.
  subst bookingId.
  do 2 eexists. split; [|split; [reflexivity|]].
  - unfold extendBooking.
    cbn [ExtendReq.bookingId ExtendReq.rentalEndDate ExtendReq.rentalEndTime
         ExtendReq.protocol ExtendReq.host].
    run_handler. unfold override.
    rewrite Hfound. cbv beta iota. rewrite Hcar, Hstart. cbn [Js.le].
    rewrite (proj2 (Z.leb_gt start (now rt)) Hfuture). cbv beta iota.
    rewrite Hgiven. cbn [Js.truthy Js.text]. rewrite HendDate, HasDate, Hclock.
    cbn [isSome negb andb]. cbv beta iota.
    cbn [Booking.rentalEndDate Booking.rentalEndTime Booking.rentalStartDate
         Booking.rentalStartTime Booking.setRentalEndDate Booking.setRentalEndTime].
    rewrite Hend. cbn [Js.le].
    rewrite (proj2 (Z.leb_gt newEnd start) Hordered). cbv beta iota.
    rewrite find_none_of_none_in.
    2:{ intros b Hin. rewrite extendBookingOverlap_unfold.
        cbn [Booking.rentalEndDate Booking.rentalStartDate].
        destruct (String.eqb_spec (Booking.carId b) (Car._id car)) as [Hsame|_];
          [|reflexivity].
        destruct (String.eqb_spec (Booking._id b) (Booking._id booking)) as [_|Hother];
          [reflexivity|].
        cbn [negb andb]. exact (Hfree b Hin Hsame Hother). }
    cbn [isSome daysRentedOf priceOf]. cbv beta iota.
    rewrite Hcount, Hnumber, Hpositive. cbn [orb]. cbv beta iota.
    unfold invoiceUrlOf. reflexivity.
  - cbn [bookings invoices cars emitted Booking._id Booking.setTotalPrice
         Booking.setRentalEndDate Booking.setRentalEndTime].
    repeat match goal with |- _ /\ _ => split end; try reflexivity.
    unfold findBooking. cbn [bookings].
    match goal with
    | |- find _ _ = Some ?saved => apply (find_saved_booking saved booking)
    end.
    cbn [Booking._id]. exact Hfound.
Qed.

(** X11 on the 24-hour booking: two more days, till 2025-06-05 18:30, six
    days at 100. *)
Lemma extendBooking_extends_witness :
  exists extended w',
    extendBooking (Sample.runtimeAt Sample.may2025 "") Scenario.twoMoreDays
                  Sample.plainlyBooked
    = ({| status := 200;
          json := WithInvoice "Booking extended successfully" extended
                    "https://swiftride.example/api/bookcar/invoices/invoice_booking1.pdf" |},
       w')
    /\ extended
       = {| Booking._id := "booking1";
            Booking.carId := "car1";
            Booking.userId := "user1";
            Booking.showroomId := "showroom1";
            Booking.rentalStartDate := "2025-06-01";
            Booking.rentalStartTime := "10:00";
            Booking.rentalEndDate := "2025-06-05";
            Booking.rentalEndTime := "18:30";
            Booking.totalPrice := Js.mul (Js.ofInt 6) (Js.ofInt 100) |}
    /\ bookings w' = [extended]
    /\ findBooking "booking1" w' = Some extended
    /\ invoices w'
       = [{| Invoice._id := "booking1";
             Invoice.carId := "car1";
             Invoice.userId := "user1";
             Invoice.rentalStartDate := "2025-06-01";
             Invoice.rentalEndDate := "2025-06-05";
             Invoice.rentalStartTime := "10:00";
             Invoice.rentalEndTime := "18:30";
             Invoice.totalPrice := Js.mul (Js.ofInt 6) (Js.ofInt 100) |}]
    /\ cars w' = cars Sample.plainlyBooked
    /\ emitted w' = [].
Proof.
  destruct (extendBooking_extends (Sample.runtimeAt Sample.may2025 "")
              Sample.plainlyBooked Sample.plainBooking
              (Car.setAvailability "Rented Out" Sample.car1)
              "booking1" "2025-06-05" "https" "swiftride.example"
              18 30 1748772000000 1749081600000 1749148200000 5)
    as (extended & w' & Hrun & -> & Hbookings & Hfound & Hinvoices & Hcars & Hemitted).
  - reflexivity.
  - reflexivity.
  - reflexivity.
  - vm_compute. reflexivity.
  - discriminate.
  - reflexivity.
  - lia.
  - lia.
  - reflexivity.
  - vm_compute. reflexivity.
  - vm_compute. split; [reflexivity | discriminate].
  - intros b [<-|[]] _ Hother. exfalso. apply Hother. reflexivity.
  - vm_compute. reflexivity.
  - vm_compute. reflexivity.
  - do 2 eexists. split; [exact Hrun|]. split; [reflexivity|].
    split; [exact Hbookings|]. split; [exact Hfound|]. split; [exact Hinvoices|].
    split; [exact Hcars | exact Hemitted].
Defined.

(** X12.  updateBooking goes through for a booking that has not started
    when the request gives all four fields and, after the locale round
    trip, the start built from them is strictly after the previous start
    and the end after that start, the car is there and the price is a
    number; no condition on the other bookings of the car is involved.  The
    answer is 200, the stored booking gets the four fields and the price
    [(k + 1) * rentRate] for the [k] whole days the difference of the two
    round-tripped dates rounds up to, and nothing else changes. *)
Theorem updateBooking_moves
  (rt : Runtime) (w : World) (booking : Booking.t) (car : Car.t)
  (bookingId startDate endDate startClock endClock : string)
  (start localStart localNow newStart newLocalStart newEnd newLocalEnd k : Z) :
  findBooking bookingId w = Some booking ->
  findCar (Booking.carId booking) w = Some car ->
  storedStart rt booking = Some start ->
  karachiWallClock rt start = Some localStart ->
  karachiWallClock rt (now rt) = Some localNow ->
  localNow < localStart ->
  startDate <> ""%string ->
  endDate <> ""%string ->
  startClock <> ""%string ->
  endClock <> ""%string ->
  Date_parse rt (startDate ++ "T" ++ startClock)%string = Some newStart ->
  karachiWallClock rt newStart = Some newLocalStart ->
  Date_parse rt (endDate ++ "T" ++ endClock)%string = Some newEnd ->
  karachiWallClock rt newEnd = Some newLocalEnd ->
  newLocalStart < newLocalEnd ->
  localStart < newLocalStart ->
  Calendar.msPerDay * (k - 1) < newLocalEnd - newLocalStart <= Calendar.msPerDay * k ->
  Js.isNaN (Js.mul (Js.ofInt (k + 1)) (Car.rentRate car)) = false ->
  exists saved w',
    updateBooking rt
      {| UpdateReq.bookingId := bookingId;
         UpdateReq.rentalStartDate := Some startDate;
         UpdateReq.rentalEndDate := Some endDate;
         UpdateReq.rentalStartTime := Some startClock;
         UpdateReq.rentalEndTime := Some endClock |} w
    = ({| status := 200; json := WithBooking "Booking updated successfully" saved |}, w')
    /\ saved
       = {| Booking._id := bookingId;
            Booking.carId := Booking.carId booking;
            Booking.userId := Booking.userId booking;
            Booking.showroomId := Booking.showroomId booking;
            Booking.rentalStartDate := startDate;
            Booking.rentalStartTime := startClock;
            Booking.rentalEndDate := endDate;
            Booking.rentalEndTime := endClock;
            Booking.totalPrice := Js.mul (Js.ofInt (k + 1)) (Car.rentRate car) |}
    /\ bookings w'
       = map (fun b => if (Booking._id b =? bookingId)%string then saved else b)
             (bookings w)
    /\ findBooking bookingId w' = Some saved
    /\ cars w' = cars w
    /\ invoices w' = invoices w
    /\ emitted w' = emitted w.
Proof.
  intros Hfound Hcar Hstart Hlocal Hnow Hfuture HstartDate HendDate HstartClock HendClock
         HnewStart HnewLocalStart HnewEnd HnewLocalEnd Hordered Hlater Hdays Hnumber.
  assert (Hid : Booking._id booking = bookingId).
  { apply find_some in Hfound. apply String.eqb_eq. apply Hfound. }
  assert (Hcount : daysRented newLocalEnd newLocalStart = k + 1).
  { rewrite (daysRented_of_bounds newLocalEnd newLocalStart k Hdays).
    change Calendar.msPerDay with 86400000 in Hdays. lia. }
  apply String.eqb_neq in HstartDate, HendDate, HstartClock, HendClock.
  unfold storedStart in Hstart. unfold findBooking in Hfound.
  subst bookingId.
  do 2 eexists. split; [|split; [reflexivity|]].
  - unfold updateBooking.
    cbn [UpdateReq.bookingId UpdateReq.rentalStartDate UpdateReq.rentalEndDate
         UpdateReq.rentalStartTime UpdateReq.rentalEndTime].
    run_handler. unfold override.
    rewrite Hfound. cbv beta iota. rewrite Hcar, Hstart. cbn [toKarachi].
    rewrite Hlocal, Hnow. cbn [Js.ge Js.le].
    rewrite (proj2 (Z.leb_gt localStart localNow) Hfuture). cbv beta iota.
    cbn [Js.truthy Js.text]. rewrite HstartDate, HendDate, HstartClock, HendClock.
    cbn [negb]. cbv beta iota.
    cbn [Booking.rentalEndDate Booking.rentalEndTime Booking.rentalStartDate
         Booking.rentalStartTime Booking.setRentalEndDate Booking.setRentalEndTime
         Booking.setRentalStartDate Booking.setRentalStartTime].
    rewrite HnewStart, HnewEnd. cbn [toKarachi].
    rewrite HnewLocalStart, HnewLocalEnd. cbn [Js.le].
    rewrite (proj2 (Z.leb_gt newLocalEnd newLocalStart) Hordered). cbv beta iota.
    rewrite (proj2 (Z.leb_gt newLocalStart localStart) Hlater). cbv beta iota.
    rewrite find_none_of_all_false
      by (intros b; apply updateBookingOverlap_matches_nothing).
    cbn [isSome daysRentedOf priceOf]. cbv beta iota.
    rewrite Hcount, Hnumber. reflexivity.
  - cbn [bookings invoices cars emitted Booking._id Booking.setTotalPrice].
    repeat match goal with |- _ /\ _ => split end; try reflexivity.
    unfold findBooking. cbn [bookings].
    match goal with
    | |- find _ _ = Some ?saved => apply (find_saved_booking saved booking)
    end.
    cbn [Booking._id]. exact Hfound.
Qed.

(** X12 on a car with two bookings: the first is moved to 2025-06-05 till
    2025-06-07, inside the second one (2025-06-04 till 2025-06-08), and the
    Booking collection then holds both. *)
Lemma updateBooking_moves_witness :
  exists saved w',
    updateBooking (Sample.runtimeAt Sample.may2025 "") Scenario.moveIntoLater
                  Scenario.twiceBooked
    = ({| status := 200; json := WithBooking "Booking updated successfully" saved |}, w')
    /\ saved
       = {| Booking._id := "booking1";
            Booking.carId := "car1";
            Booking.userId := "user1";
            Booking.showroomId := "showroom1";
            Booking.rentalStartDate := "2025-06-05";
            Booking.rentalStartTime := "10:00";
            Booking.rentalEndDate := "2025-06-07";
            Booking.rentalEndTime := "10:00";
            Booking.totalPrice := Js.mul (Js.ofInt 3) (Js.ofInt 100) |}
    /\ bookings w' = [saved; Scenario.laterBooking]
    /\ findBooking "booking1" w' = Some saved
    /\ cars w' = cars Scenario.twiceBooked
    /\ invoices w' = []
    /\ emitted w' = [].
Proof.
  destruct (updateBooking_moves (Sample.runtimeAt Sample.may2025 "")
              Scenario.twiceBooked Sample.plainBooking
              (Car.setAvailability "Rented Out" Sample.car1)
              "booking1" "2025-06-05" "2025-06-07" "10:00" "10:00"
              1748772000000 1748790000000 1746075600000
              1749117600000 1749135600000 1749290400000 1749308400000 2)
    as (saved & w' & Hrun & -> & Hbookings & Hfound & Hcars & Hinvoices & Hemitted).
  - reflexivity.
  - reflexivity.
  - reflexivity.
  - reflexivity.
  - reflexivity.
  - vm_compute. reflexivity.
  - discriminate.
  - discriminate.
  - discriminate.
  - discriminate.
  - reflexivity.
  - reflexivity.
  - reflexivity.
  - reflexivity.
  - vm_compute. reflexivity.
  - vm_compute. reflexivity.
  - vm_compute. split; [reflexivity | discriminate].
  - vm_compute. reflexivity.
  - do 2 eexists. split; [exact Hrun|]. split; [reflexivity|].
    split; [exact Hbookings|]. split; [exact Hfound|]. split; [exact Hcars|].
    split; [exact Hinvoices | exact Hemitted].
Defined.

(** X13.  A booking whose stored start the runtime cannot read as a date
    can never be extended: whatever the request and the clock,
    extendBooking answers 400 or 500 and writes nothing, and the answer is
    never the refusal of the start guard. *)
Theorem extendBooking_unreadable_start
  (rt : Runtime) (req : ExtendReq.t) (w : World) (booking : Booking.t) :
  findBooking (ExtendReq.bookingId req) w = Some booking ->
  storedStart rt booking = None ->
  (status (fst (extendBooking rt req w)) = 400
   \/ status (fst (extendBooking rt req w)) = 500)
  /\ snd (extendBooking rt req w) = w
  /\ json (fst (extendBooking rt req w))
     <> Message "You can only extend the booking before the rental start time.".
Proof.
  intros Hfound Hstart. unfold findBooking in Hfound. unfold storedStart in Hstart.
  unfold extendBooking. run_handler.
  rewrite Hfound. cbv beta iota. rewrite Hstart. cbn [Js.le]. cbv beta iota.
  repeat (branch;
          try (cbn [fst snd status json];
               split; [first [left; reflexivity | right; reflexivity]
                      | split; [reflexivity | discriminate]])).
  all: match goal with
       | H : Js.isNaN (priceOf (daysRentedOf ?e None) _) = false |- _ =>
           destruct e; discriminate H
       end.
Qed.

(** X13 on the booking bookCar made, whose clock is stored as "10:00 AM". *)
Lemma extendBooking_unreadable_start_witness :
  (status (fst (extendBooking (Sample.runtimeAt Sample.may2025 "") Scenario.twoMoreDays
                              Sample.booked)) = 400
   \/ status (fst (extendBooking (Sample.runtimeAt Sample.may2025 "") Scenario.twoMoreDays
                                 Sample.booked)) = 500)
  /\ snd (extendBooking (Sample.runtimeAt Sample.may2025 "") Scenario.twoMoreDays
                        Sample.booked) = Sample.booked
  /\ json (fst (extendBooking (Sample.runtimeAt Sample.may2025 "") Scenario.twoMoreDays
                              Sample.booked))
     <> Message "You can only extend the booking before the rental start time.".
Proof.
  apply (extendBooking_unreadable_start (Sample.runtimeAt Sample.may2025 "")
           Scenario.twoMoreDays Sample.booked Sample.juneBooking); reflexivity.
Defined.

(** ** getUserBookings *)

Lemma userFilter_unfold (userId : string) (b : Booking.t) :
  Mongo.matches (Booking.doc b)
    (Mongo.All [Mongo.Field "userId" [Mongo.Eq (Mongo.VId userId)]])
  = (Booking.userId b =? userId)%string.
Proof. cbn. repeat rewrite andb_true_r. reflexivity. Qed.

Lemma filter_drops_all {A} (p : A -> bool) (l : list A) :
  (forall a, In a l -> p a = false) -> filter p l = [].
Proof.
  induction l as [|a l IH]; simpl; intros Hp; [reflexivity|].
  rewrite (Hp a) by (left; reflexivity).
  apply IH. intros a' Hin. apply Hp. right. exact Hin.
Qed.

(** The listing, as a function of the bookings the query returns. *)
Lemma getUserBookings_run (showrooms : list Showroom.t) (user : string) (w : World) :
  user <> ""%string ->
  getUserBookings showrooms (Some user) w
  = (match filter (fun b => (Booking.userId b =? user)%string) (bookings w) with
     | [] => {| listStatus := 404; listJson := ListMessage "No active bookings found" |}
     | own =>
         {| listStatus := 200;
            listJson :=
              Listing
                (map (fun b =>
                        {| BookingDetails.booking := b;
                           BookingDetails.carDetails := findCar (Booking.carId b) w;
                           BookingDetails.showroomDetails := populateShowroom showrooms b |})
                     own) |}
     end, w).
Proof.
  intros Huser. apply String.eqb_neq in Huser.
  unfold getUserBookings. cbn [Js.truthy Js.text]. rewrite Huser. cbn [negb].
  rewrite (filter_ext _ _ (userFilter_unfold user)).
  destruct (filter _ (bookings w)); reflexivity.
Qed.

(** X14.  For a user id that is given, getUserBookings writes nothing and
    answers 404 when no stored booking is the user's; when it answers with
    a listing the status is 200, the listed bookings are exactly the stored
    bookings of that user (nobody else's), each comes with the car its
    [carId] resolves to, and no listed showroom carries a [password]
    field. *)
Theorem getUserBookings_lists_own
  (showrooms : list Showroom.t) (user : string) (w : World) :
  user <> ""%string ->
  snd (getUserBookings showrooms (Some user) w) = w
  /\ ((forall b, In b (bookings w) -> Booking.userId b <> user) ->
      fst (getUserBookings showrooms (Some user) w)
      = {| listStatus := 404; listJson := ListMessage "No active bookings found" |})
  /\ (forall entries,
         listJson (fst (getUserBookings showrooms (Some user) w)) = Listing entries ->
         listStatus (fst (getUserBookings showrooms (Some user) w)) = 200
         /\ (forall b, In b (map BookingDetails.booking entries)
                       <-> In b (bookings w) /\ Booking.userId b = user)
         /\ (forall e, In e entries ->
                       BookingDetails.carDetails e
                       = findCar (Booking.carId (BookingDetails.booking e)) w
                       /\ forall s field,
                            BookingDetails.showroomDetails e = Some s ->
                            In field (Showroom.fields s) ->
                            fst field <> "password"%string)).
Proof.
  intros Huser. rewrite (getUserBookings_run showrooms user w Huser). cbn [fst snd].
  split; [reflexivity|]. split.
  - intros Hnone.
    rewrite (filter_drops_all (fun b => (Booking.userId b =? user)%string) (bookings w));
      [reflexivity|].
    intros b Hin. apply String.eqb_neq. apply Hnone. exact Hin.
  - intros entries.
    destruct (filter (fun b => (Booking.userId b =? user)%string) (bookings w))
      as [|first rest] eqn:Hown; cbn [listJson listStatus]; [discriminate|].
    intros Hentries. injection Hentries as <-.
    split; [reflexivity|]. split.
    + intros b. cbn [map BookingDetails.booking]. rewrite map_map.
      cbn [BookingDetails.booking]. rewrite map_id.
      rewrite <- Hown, filter_In, String.eqb_eq. reflexivity.
    + intros e He.
      assert (Hshape : exists b,
                 e = {| BookingDetails.booking := b;
                        BookingDetails.carDetails := findCar (Booking.carId b) w;
                        BookingDetails.showroomDetails := populateShowroom showrooms b |}).
      { destruct He as [<-|He]; [eexists; reflexivity|].
        apply in_map_iff in He. destruct He as (b & <- & _). eexists. reflexivity. }
      destruct Hshape as (b & ->).
      cbn [BookingDetails.carDetails BookingDetails.booking BookingDetails.showroomDetails].
      split; [reflexivity|].
      intros s field Hs Hfield. unfold populateShowroom in Hs.
      destruct (find _ showrooms) as [found|]; [|discriminate].
      injection Hs as <-. unfold Showroom.without in Hfield. cbn [Showroom.fields] in Hfield.
      apply filter_In in Hfield. destruct Hfield as [_ Hkept].
      apply negb_true_iff, String.eqb_neq in Hkept. exact Hkept.
Qed.

(** X14 on the sample fleet: the listing of [user1]. *)
Lemma getUserBookings_lists_own_witness :
  snd (getUserBookings [Scenario.showroom1] (Some "user1"%string) Sample.booked)
  = Sample.booked
  /\ ((forall b, In b (bookings Sample.booked) -> Booking.userId b <> "user1"%string) ->
      fst (getUserBookings [Scenario.showroom1] (Some "user1"%string) Sample.booked)
      = {| listStatus := 404; listJson := ListMessage "No active bookings found" |})
  /\ (forall entries,
         listJson (fst (getUserBookings [Scenario.showroom1] (Some "user1"%string)
                                        Sample.booked)) = Listing entries ->
         listStatus (fst (getUserBookings [Scenario.showroom1] (Some "user1"%string)
                                          Sample.booked)) = 200
         /\ (forall b, In b (map BookingDetails.booking entries)
                       <-> In b (bookings Sample.booked)
                           /\ Booking.userId b = "user1"%string)
         /\ (forall e, In e entries ->
                       BookingDetails.carDetails e
                       = findCar (Booking.carId (BookingDetails.booking e)) Sample.booked
                       /\ forall s field,
                            BookingDetails.showroomDetails e = Some s ->
                            In field (Showroom.fields s) ->
                            fst field <> "password"%string)).
Proof.
  apply (getUserBookings_lists_own [Scenario.showroom1] "user1" Sample.booked).
  discriminate.
Defined.

(** ** The 12-hour clock *)

(** X15.  On every clock [HH:MM] of the day, formatTimeTo12Hour gives the
    12-hour reading: the hour modulo 12 with 12 in place of 0 and without
    a leading zero, the minute on two digits, and PM from noon on. *)
Theorem formatTimeTo12Hour_clock (hour minute : Z) :
  0 <= hour < 24 ->
  0 <= minute < 60 ->
  isClock (clockText hour minute) = true
  /\ formatTimeTo12Hour (clockText hour minute)
     = Some (Js.toString (if hour mod 12 =? 0 then 12 else hour mod 12)%Z
             ++ ":" ++ Js.padStart0 2 (Js.toString minute)
             ++ " " ++ (if (12 <=? hour)%Z then "PM" else "AM"))%string.
Proof.
  intros Hhour Hminute.
  destruct (clock_reading hour minute Hhour Hminute) as (Hclock & _ & Hreading).
  split; [exact Hclock | exact Hreading].
Qed.

(** X15 at half past one in the afternoon. *)
Lemma formatTimeTo12Hour_clock_witness :
  isClock (clockText 13 30) = true
  /\ formatTimeTo12Hour (clockText 13 30)
     = Some (Js.toString (if 13 mod 12 =? 0 then 12 else 13 mod 12)%Z
             ++ ":" ++ Js.padStart0 2 (Js.toString 30)
             ++ " " ++ (if (12 <=? 13)%Z then "PM" else "AM"))%string.
Proof.
  apply (formatTimeTo12Hour_clock 13 30); lia.
Defined.

(** ** The days a created booking is charged for *)

(** X16.  A booking bookCar creates is charged for at least one day and
    for every day it touches: its totalPrice is the product of a day count
    and the rate of the car, the count is at least 1, at least one more
    than every number of full 24 hours that fit between start and end, and
    at most one more than every number of them that exceeds the
    difference.  For a rate that is a positive integer, as long as count
    times rate is below 2^53, the price is an integer that is at least the
    rate, and at least the rate for each such full day plus one. *)
Theorem bookCar_charges_every_day
  (rt : Runtime) (req : BookCarReq.t) (w w' : World) (r : Response) :
  bookCar rt req w = (r, w') ->
  status r = 201 ->
  exists car startTime endTime booking invoiceUrl days,
    findCar (Js.text (BookCarReq.carId req)) w = Some car
    /\ requestedStart rt req = Some startTime
    /\ requestedEnd rt req = Some endTime
    /\ json r = WithInvoice "Car booked successfully" booking invoiceUrl
    /\ Booking.totalPrice booking = Js.mul (Js.ofInt days) (Car.rentRate car)
    /\ 1 <= days
    /\ (forall full, full * Calendar.msPerDay <= endTime - startTime -> full + 1 <= days)
    /\ (forall full, endTime - startTime < full * Calendar.msPerDay -> days <= full + 1)
    /\ (forall rate,
           0 < rate ->
           Car.rentRate car = Js.ofInt rate ->
           days * rate < 2 ^ 53 ->
           exists price,
             Js.integerOf (Booking.totalPrice booking) = Some price
             /\ rate <= price
             /\ forall full,
                  0 <= full ->
                  full * Calendar.msPerDay <= endTime - startTime ->
                  (full + 1) * rate <= price).
Proof.
  intros Hrun Hok.
  destruct (bookCar_created rt req w w' r Hrun Hok)
    as (car & startTime & endTime & booking & snapshot & _ & Hcar & _ & _ & Hstart & Hend
        & _ & Hordered & _ & _ & _ & _ & _ & _ & _ & _ & Hprice & _ & Hjson).
  pose proof (daysRented_positive endTime startTime Hordered) as Hdays.
  exists car, startTime, endTime, booking. eexists. exists (daysRented endTime startTime).
  repeat match goal with |- _ /\ _ => split end; try eassumption.
  - intros full Hfull. exact (daysRented_full_days endTime startTime full Hfull).
  - intros full Hfull.
    destruct (daysRented_bounds endTime startTime) as (k & Hk & ->).
    change Calendar.msPerDay with 86400000 in *. lia.
  - intros rate Hrate Hinteger Hbelow.
    destruct (price_of_integer_rate (daysRented endTime startTime) rate) as [Hexact Hvalue];
      try assumption; try lia.
    exists (daysRented endTime startTime * rate).
    rewrite Hprice, Hinteger, Hexact.
    split; [exact Hvalue|]. split; [nia|].
    intros full Hnonneg Hfull.
    pose proof (daysRented_full_days endTime startTime full Hfull). nia.
Qed.

(** X16 on the sample fleet: two full days, three days charged. *)
Lemma bookCar_charges_every_day_witness :
  exists car startTime endTime booking invoiceUrl days,
    findCar "car1" Sample.fleet = Some car
    /\ requestedStart (Sample.runtimeAt Sample.may2025 "booking1") Sample.juneRequest
       = Some startTime
    /\ requestedEnd (Sample.runtimeAt Sample.may2025 "booking1") Sample.juneRequest
       = Some endTime
    /\ json (fst (bookCar (Sample.runtimeAt Sample.may2025 "booking1")
                          Sample.juneRequest Sample.fleet))
       = WithInvoice "Car booked successfully" booking invoiceUrl
    /\ Booking.totalPrice booking = Js.mul (Js.ofInt days) (Car.rentRate car)
    /\ 1 <= days
    /\ (forall full, full * Calendar.msPerDay <= endTime - startTime -> full + 1 <= days)
    /\ (forall full, endTime - startTime < full * Calendar.msPerDay -> days <= full + 1)
    /\ (forall rate,
           0 < rate ->
           Car.rentRate car = Js.ofInt rate ->
           days * rate < 2 ^ 53 ->
           exists price,
             Js.integerOf (Booking.totalPrice booking) = Some price
             /\ rate <= price
             /\ forall full,
                  0 <= full ->
                  full * Calendar.msPerDay <= endTime - startTime ->
                  (full + 1) * rate <= price).
Proof.
  apply (bookCar_charges_every_day (Sample.runtimeAt Sample.may2025 "booking1")
           Sample.juneRequest Sample.fleet Sample.booked
           (fst (bookCar (Sample.runtimeAt Sample.may2025 "booking1")
                         Sample.juneRequest Sample.fleet))).
  - apply surjective_pairing.
  - vm_compute. reflexivity.
Defined.
